(** * The asynchronous dispatch loop of the SSD object detection demo

    Source: demos/object_detection_demo_ssd_async/main.cpp, section
    "7. Do inference" (lines 303-627): the control thread's while loop, the
    completion callback it registers on every inference request, the TAB
    handler that switches between the user-specified and the minimum-latency
    pool of requests, and the final report.

    The embedding is a small-step machine.  One [Control] event runs the
    control thread from one program point to the next; one [Completion]
    event runs the completion callback of an in-flight request, atomically
    and under the mutex, as the [lock_guard] of line 539 makes it.  Whatever
    the program takes from outside (the clock, the key returned by
    [cv::waitKey], the outcome of [cap.read], the output buffer or the
    exception of the backend) is an input of the event. *)

From stdpp Require Import gmap list strings pretty.
From Stdlib Require Import ZArith Lia.

#[local] Open Scope Z_scope.
#[local] Open Scope nat_scope.

(** ** Data *)

(** [InferRequest::Ptr]: the [FLAGS_nireq] requests of
    [userSpecifiedInferRequests], by index, and [minLatencyInferRequest]. *)
Inductive Request : Type :=
  | UserSpecifiedRequest (i : nat)
  | MinLatencyRequest.

#[global] Instance Request_eq_dec : EqDecision Request.
Proof. solve_decision. Defined.

(** [cv::Mat]: an empty matrix or a decoded image, named by a number. *)
Inductive Mat : Type :=
  | EmptyMat
  | Image (n : nat).

Definition Mat_empty (m : Mat) : bool :=
  match m with EmptyMat => true | Image _ => false end.

(** [const float*]: an address, [nullptr] being 0. *)
Definition nullptr : N := 0%N.

(** The counters [nextFrameId], [nextFrameIdToShow] and [framesCount] are
    [int]s that start at 0 and are only incremented; they are natural
    numbers here (signed overflow is undefined in the source, and is not
    modelled). *)

(** The clock is read in ticks; a duration is a difference of ticks.  The
    source accumulates seconds in a [double]; the embedding keeps the exact
    number of ticks. *)
Definition time_point := Z.

(** [struct RequestResult], lines 303-308. *)
Record RequestResult : Type := mkRequestResult {
  frame : Mat;
  output : N;
  startTime : time_point;
  isSameMode : bool
}.

(** [struct ModeInfo], lines 310-315.  [lastEndTime] is value-initialised to
    the epoch, which the report tests as [time_since_epoch().count() != 0]. *)
Record ModeInfo : Type := mkModeInfo {
  framesCount : nat;
  latencySum : Z;
  lastStartTime : time_point;
  lastEndTime : time_point
}.

(** [ModeInfo()] when the clock reads [now]. *)
Definition ModeInfo_new (now : time_point) : ModeInfo :=
  {| framesCount := 0; latencySum := 0%Z; lastStartTime := now; lastEndTime := 0%Z |}.

(** [std::map<bool, ModeInfo> modeInfo], which always holds both keys
    (line 340). *)
Record ModeInfos : Type := mkModeInfos {
  ofUserSpecified : ModeInfo;
  ofMinLatency : ModeInfo
}.

Definition modeInfo_at (m : bool) (mi : ModeInfos) : ModeInfo :=
  if m then ofUserSpecified mi else ofMinLatency mi.

Definition modeInfo_set (m : bool) (v : ModeInfo) (mi : ModeInfos) : ModeInfos :=
  if m then {| ofUserSpecified := v; ofMinLatency := ofMinLatency mi |}
  else {| ofUserSpecified := ofUserSpecified mi; ofMinLatency := v |}.

(** An exception raised inside a completion callback, named by a number. *)
Definition CallbackExn := nat.

(** What [main] can catch at lines 630-637. *)
Inductive Exn : Type :=
  | BackendFailure (e : CallbackExn)   (* line 360: the callback's exception *)
  | ReadFailure                        (* line 512 *)
  | RequestBusy.                       (* a request started while it is running *)

(** What the completion callback captures by value (lines 523-529): the
    request, [nextFrameId], [frameMode], [frame] and [startTime]. *)
Record Closure : Type := mkClosure {
  cRequest : Request;
  cFrameId : nat;
  cFrameMode : bool;
  cFrame : Mat;
  cStartTime : time_point
}.

(** How [main] returns: line 640, or one of the handlers of lines 630-637. *)
Inductive ExitReason : Type :=
  | Completed
  | Failed (e : Exn).

Definition exit_status (r : ExitReason) : Z :=
  match r with Completed => 0%Z | Failed _ => 1%Z end.

(** Program points of the control thread. *)
Inductive Pc : Type :=
  | LoopCond                           (* 355: about to test the while condition *)
  | Rethrow                            (* 360 *)
  | Lock                               (* 365: about to take the mutex *)
  | FindErase                          (* 367-372: mutex held *)
  | Dispatch (requestResult : RequestResult)   (* 374, 497, 566 *)
  | TabWait (prevMode : bool)          (* 473-488: inside the TAB handler *)
  | WaitLock                           (* 567: about to take the mutex *)
  | WaitCheck                          (* 569: mutex held *)
  | Waiting                            (* 571: blocked in condVar.wait *)
  | Report                             (* 578-627 *)
  | Exited (r : ExitReason).

(** One frame handed to the consumer (line 458), with the operands of the
    division of lines 449-450.  A record of what the loop did, kept for the
    statements below; the program does not read it. *)
Record Shown : Type := mkShown {
  shownId : nat;
  shownResult : RequestResult;
  latencyDividend : Z;
  latencyDivisor : nat
}.

(** The variables of section 6 that the loop uses, the mutex, the requests
    the backend is running ([inflight]) and two logs: the frames submitted
    and the frames shown. *)
Record State : Type := mkState {
  isUserSpecifiedMode : bool;
  emptyRequests : list Request;
  completedRequestResults : gmap nat RequestResult;
  callbackException : option CallbackExn;
  mutexLocked : bool;
  capOpened : bool;
  nextFrameId : nat;
  nextFrameIdToShow : nat;
  modeInfo : ModeInfos;
  pc : Pc;
  inflight : list Closure;
  submitted : list Mat;
  shown : list Shown
}.

(** Assignments to one variable of the state. *)

Definition set_isUserSpecifiedMode (v : bool) (s : State) : State :=
  {| isUserSpecifiedMode := v; emptyRequests := emptyRequests s;
     completedRequestResults := completedRequestResults s;
     callbackException := callbackException s; mutexLocked := mutexLocked s;
     capOpened := capOpened s; nextFrameId := nextFrameId s;
     nextFrameIdToShow := nextFrameIdToShow s; modeInfo := modeInfo s; pc := pc s;
     inflight := inflight s; submitted := submitted s; shown := shown s |}.

Definition set_emptyRequests (v : list Request) (s : State) : State :=
  {| isUserSpecifiedMode := isUserSpecifiedMode s; emptyRequests := v;
     completedRequestResults := completedRequestResults s;
     callbackException := callbackException s; mutexLocked := mutexLocked s;
     capOpened := capOpened s; nextFrameId := nextFrameId s;
     nextFrameIdToShow := nextFrameIdToShow s; modeInfo := modeInfo s; pc := pc s;
     inflight := inflight s; submitted := submitted s; shown := shown s |}.

Definition set_completedRequestResults (v : gmap nat RequestResult) (s : State) : State :=
  {| isUserSpecifiedMode := isUserSpecifiedMode s; emptyRequests := emptyRequests s;
     completedRequestResults := v; callbackException := callbackException s;
     mutexLocked := mutexLocked s; capOpened := capOpened s;
     nextFrameId := nextFrameId s; nextFrameIdToShow := nextFrameIdToShow s;
     modeInfo := modeInfo s; pc := pc s; inflight := inflight s;
     submitted := submitted s; shown := shown s |}.

Definition set_callbackException (v : option CallbackExn) (s : State) : State :=
  {| isUserSpecifiedMode := isUserSpecifiedMode s; emptyRequests := emptyRequests s;
     completedRequestResults := completedRequestResults s; callbackException := v;
     mutexLocked := mutexLocked s; capOpened := capOpened s;
     nextFrameId := nextFrameId s; nextFrameIdToShow := nextFrameIdToShow s;
     modeInfo := modeInfo s; pc := pc s; inflight := inflight s;
     submitted := submitted s; shown := shown s |}.

Definition set_mutexLocked (v : bool) (s : State) : State :=
  {| isUserSpecifiedMode := isUserSpecifiedMode s; emptyRequests := emptyRequests s;
     completedRequestResults := completedRequestResults s;
     callbackException := callbackException s; mutexLocked := v;
     capOpened := capOpened s; nextFrameId := nextFrameId s;
     nextFrameIdToShow := nextFrameIdToShow s; modeInfo := modeInfo s; pc := pc s;
     inflight := inflight s; submitted := submitted s; shown := shown s |}.

Definition set_capOpened (v : bool) (s : State) : State :=
  {| isUserSpecifiedMode := isUserSpecifiedMode s; emptyRequests := emptyRequests s;
     completedRequestResults := completedRequestResults s;
     callbackException := callbackException s; mutexLocked := mutexLocked s;
     capOpened := v; nextFrameId := nextFrameId s;
     nextFrameIdToShow := nextFrameIdToShow s; modeInfo := modeInfo s; pc := pc s;
     inflight := inflight s; submitted := submitted s; shown := shown s |}.

Definition set_nextFrameId (v : nat) (s : State) : State :=
  {| isUserSpecifiedMode := isUserSpecifiedMode s; emptyRequests := emptyRequests s;
     completedRequestResults := completedRequestResults s;
     callbackException := callbackException s; mutexLocked := mutexLocked s;
     capOpened := capOpened s; nextFrameId := v;
     nextFrameIdToShow := nextFrameIdToShow s; modeInfo := modeInfo s; pc := pc s;
     inflight := inflight s; submitted := submitted s; shown := shown s |}.

Definition set_nextFrameIdToShow (v : nat) (s : State) : State :=
  {| isUserSpecifiedMode := isUserSpecifiedMode s; emptyRequests := emptyRequests s;
     completedRequestResults := completedRequestResults s;
     callbackException := callbackException s; mutexLocked := mutexLocked s;
     capOpened := capOpened s; nextFrameId := nextFrameId s; nextFrameIdToShow := v;
     modeInfo := modeInfo s; pc := pc s; inflight := inflight s;
     submitted := submitted s; shown := shown s |}.

Definition set_modeInfo (v : ModeInfos) (s : State) : State :=
  {| isUserSpecifiedMode := isUserSpecifiedMode s; emptyRequests := emptyRequests s;
     completedRequestResults := completedRequestResults s;
     callbackException := callbackException s; mutexLocked := mutexLocked s;
     capOpened := capOpened s; nextFrameId := nextFrameId s;
     nextFrameIdToShow := nextFrameIdToShow s; modeInfo := v; pc := pc s;
     inflight := inflight s; submitted := submitted s; shown := shown s |}.

Definition set_pc (v : Pc) (s : State) : State :=
  {| isUserSpecifiedMode := isUserSpecifiedMode s; emptyRequests := emptyRequests s;
     completedRequestResults := completedRequestResults s;
     callbackException := callbackException s; mutexLocked := mutexLocked s;
     capOpened := capOpened s; nextFrameId := nextFrameId s;
     nextFrameIdToShow := nextFrameIdToShow s; modeInfo := modeInfo s; pc := v;
     inflight := inflight s; submitted := submitted s; shown := shown s |}.

Definition set_inflight (v : list Closure) (s : State) : State :=
  {| isUserSpecifiedMode := isUserSpecifiedMode s; emptyRequests := emptyRequests s;
     completedRequestResults := completedRequestResults s;
     callbackException := callbackException s; mutexLocked := mutexLocked s;
     capOpened := capOpened s; nextFrameId := nextFrameId s;
     nextFrameIdToShow := nextFrameIdToShow s; modeInfo := modeInfo s; pc := pc s;
     inflight := v; submitted := submitted s; shown := shown s |}.

Definition set_submitted (v : list Mat) (s : State) : State :=
  {| isUserSpecifiedMode := isUserSpecifiedMode s; emptyRequests := emptyRequests s;
     completedRequestResults := completedRequestResults s;
     callbackException := callbackException s; mutexLocked := mutexLocked s;
     capOpened := capOpened s; nextFrameId := nextFrameId s;
     nextFrameIdToShow := nextFrameIdToShow s; modeInfo := modeInfo s; pc := pc s;
     inflight := inflight s; submitted := v; shown := shown s |}.

Definition set_shown (v : list Shown) (s : State) : State :=
  {| isUserSpecifiedMode := isUserSpecifiedMode s; emptyRequests := emptyRequests s;
     completedRequestResults := completedRequestResults s;
     callbackException := callbackException s; mutexLocked := mutexLocked s;
     capOpened := capOpened s; nextFrameId := nextFrameId s;
     nextFrameIdToShow := nextFrameIdToShow s; modeInfo := modeInfo s; pc := pc s;
     inflight := inflight s; submitted := submitted s; shown := v |}.

(** The command line flags the loop reads, and the clock at line 313. *)
Record Config : Type := mkConfig {
  FLAGS_nireq : nat;
  FLAGS_no_show : bool;
  FLAGS_loop_input : bool;
  clock0 : time_point
}.

(** What one step of the control thread takes from outside. *)
Record CtlIn : Type := mkCtlIn {
  now : time_point;      (* high_resolution_clock::now() *)
  key : Z;               (* cv::waitKey(1) *)
  readOk : bool;         (* cap.read(frame) *)
  readFrame : Mat;       (* the frame it stored *)
  reopenOk : bool        (* cap.isOpened() after cap.open, line 507-508 *)
}.

(** What the backend hands to a completion callback: the output buffer of
    [GetBlob(outputName)], or an exception. *)
Inductive CbOutcome : Type :=
  | Ready (buffer : N)
  | Throws (e : CallbackExn).

Inductive Event : Type :=
  | Control (i : CtlIn)
  | Completion (slot : nat) (o : CbOutcome).

(** ** The pools *)

Definition userSpecifiedInferRequests (cfg : Config) : list Request :=
  UserSpecifiedRequest <$> seq 0 (FLAGS_nireq cfg).

(** The requests of a mode: lines 328-332 and 481-485 push them, lines
    473-477 and 584-588 wait for them. *)
Definition pool (cfg : Config) (mode : bool) : list Request :=
  if mode then userSpecifiedInferRequests cfg else [MinLatencyRequest].

(** A request is running: the backend holds a closure for it. *)
Definition busy (r : Request) (s : State) : bool :=
  bool_decide (r ∈ cRequest <$> inflight s).

(** [request->Wait(RESULT_READY)] for every request of the mode returns:
    none of them is running. *)
Definition pool_idle (cfg : Config) (mode : bool) (s : State) : bool :=
  forallb (fun r => negb (busy r s)) (pool cfg mode).

Definition init (cfg : Config) : State :=
  {| isUserSpecifiedMode := true;
     emptyRequests := pool cfg true;
     completedRequestResults := ∅;
     callbackException := None;
     mutexLocked := false;
     capOpened := true;
     nextFrameId := 0;
     nextFrameIdToShow := 0;
     modeInfo := {| ofUserSpecified := ModeInfo_new (clock0 cfg);
                    ofMinLatency := ModeInfo_new (clock0 cfg) |};
     pc := LoopCond;
     inflight := [];
     submitted := [];
     shown := [] |}.

(** ** The reorder buffer *)

(** [std::map::insert]: an element whose key is present is not inserted and
    nothing is raised. *)
Definition map_insert (k : nat) (v : RequestResult) (m : gmap nat RequestResult)
  : gmap nat RequestResult :=
  match m !! k with
  | Some _ => m
  | None => <[k := v]> m
  end.

(** Lines 367-371: the local [requestResult] and the map afterwards.  When
    the key is absent only [output] is assigned; the other members of the
    local are not read on that path and stand here with their empty
    values. *)
Definition find_erase (k : nat) (m : gmap nat RequestResult)
  : RequestResult * gmap nat RequestResult :=
  match m !! k with
  | Some r => (r, delete k m)
  | None => ({| frame := EmptyMat; output := nullptr; startTime := 0%Z;
                isSameMode := false |}, m)
  end.

(** ** The completion callback, lines 537-561 *)

Definition completion_callback (c : Closure) (o : CbOutcome) (s : State) : State :=
  match o with
  | Ready buffer =>
      let same := eqb (cFrameMode c) (isUserSpecifiedMode s) in
      let s1 := set_completedRequestResults
                  (map_insert (cFrameId c)
                     {| frame := cFrame c; output := buffer;
                        startTime := cStartTime c; isSameMode := same |}
                     (completedRequestResults s)) s in
      if eqb (isUserSpecifiedMode s) (cFrameMode c)
      then set_emptyRequests (emptyRequests s1 ++ [cRequest c]) s1
      else s1
  | Throws e =>
      match callbackException s with
      | None => set_callbackException (Some e) s
      | Some _ => s
      end
  end.

(** The backend completes the request of [inflight] at index [slot]: its
    callback runs under the mutex and the request is idle afterwards. *)
Definition step_completion (slot : nat) (o : CbOutcome) (s : State) : option State :=
  match inflight s !! slot with
  | Some c =>
      if mutexLocked s then None
      else Some (set_inflight (delete slot (inflight s)) (completion_callback c o s))
  | None => None
  end.

(** ** The control thread *)

(** [callbackException == nullptr]. *)
Definition no_exception (s : State) : bool :=
  match callbackException s with None => true | Some _ => false end.

(** The while condition, lines 355-359. *)
Definition loop_cond (cfg : Config) (s : State) : bool :=
  (capOpened s
   || negb (bool_decide (completedRequestResults s = ∅))
   || ((isUserSpecifiedMode s && (length (emptyRequests s) <? FLAGS_nireq cfg))
       || (negb (isUserSpecifiedMode s) && (length (emptyRequests s) =? 0))))
  && no_exception s.

Definition is_quit_key (k : Z) : bool :=
  ((27 =? k) || (113 =? k) || (81 =? k))%Z.

Definition is_tab_key (k : Z) : bool := (9 =? k)%Z.

(** Lines 375-496, the branch taken when [requestResult.output] is not
    null. *)
Definition deliver (cfg : Config) (rr : RequestResult) (i : CtlIn) (s : State) : State :=
  let mode := isUserSpecifiedMode s in
  let id := nextFrameIdToShow s in
  let s := set_nextFrameIdToShow (S id) s in
  let s :=
    if isSameMode rr
    then let m := modeInfo_at mode (modeInfo s) in
         set_modeInfo
           (modeInfo_set mode
              {| framesCount := framesCount m + 1; latencySum := latencySum m;
                 lastStartTime := lastStartTime m; lastEndTime := lastEndTime m |}
              (modeInfo s)) s
    else s in
  let m := modeInfo_at mode (modeInfo s) in
  let m' := {| framesCount := framesCount m;
               latencySum := (latencySum m + (now i - startTime rr))%Z;
               lastStartTime := lastStartTime m; lastEndTime := lastEndTime m |} in
  let s := set_modeInfo (modeInfo_set mode m' (modeInfo s)) s in
  let s := set_shown
             (shown s ++ [{| shownId := id; shownResult := rr;
                             latencyDividend := latencySum m';
                             latencyDivisor := framesCount m' |}]) s in
  if FLAGS_no_show cfg then set_pc LoopCond s
  else if is_quit_key (key i) then set_pc Report s
  else if is_tab_key (key i)
       then set_pc (TabWait mode) (set_isUserSpecifiedMode (negb mode) s)
       else set_pc LoopCond s.

(** Lines 473-488: the rest of the TAB handler, once the waits of lines
    473-477 have returned. *)
Definition tab_rebuild (cfg : Config) (prevMode : bool) (i : CtlIn) (s : State) : State :=
  let mode := isUserSpecifiedMode s in
  let s := set_emptyRequests (pool cfg mode) s in
  let p := modeInfo_at prevMode (modeInfo s) in
  let s := set_modeInfo
             (modeInfo_set prevMode
                {| framesCount := framesCount p; latencySum := latencySum p;
                   lastStartTime := lastStartTime p; lastEndTime := now i |}
                (modeInfo s)) s in
  let s := set_modeInfo (modeInfo_set mode (ModeInfo_new (now i)) (modeInfo s)) s in
  set_pc LoopCond s.

(** Lines 498-564, the branch taken when a request is free and the capture
    is open.  Starting a request that is still running makes the backend
    raise. *)
Definition start_new (cfg : Config) (i : CtlIn) (s : State) : State :=
  if negb (readOk i) then
    if Mat_empty (readFrame i)
    then set_pc LoopCond
           (set_capOpened (if FLAGS_loop_input cfg then reopenOk i else false) s)
    else set_pc (Exited (Failed ReadFailure)) s
  else
    match emptyRequests s with
    | [] => s   (* excluded by the test of line 497 *)
    | request :: rest =>
        let s := set_emptyRequests rest s in
        if busy request s then set_pc (Exited (Failed RequestBusy)) s
        else
          let c := {| cRequest := request; cFrameId := nextFrameId s;
                      cFrameMode := isUserSpecifiedMode s; cFrame := readFrame i;
                      cStartTime := now i |} in
          let s := set_inflight (inflight s ++ [c]) s in
          let s := set_submitted (submitted s ++ [readFrame i]) s in
          let s := set_nextFrameId (S (nextFrameId s)) s in
          set_pc LoopCond s
    end.

(** The condition of the inner loop, line 569. *)
Definition wait_cond (s : State) : bool :=
  no_exception s
  && bool_decide (emptyRequests s = [])
  && bool_decide (completedRequestResults s = ∅).


(** One step of the control thread; [None] when it cannot move (it waits
    for the mutex or for requests, or [main] has returned).

    The mutex is taken in a step of its own ([Lock], [WaitLock]) and given
    back at the end of the step that runs the locked lines, so that a
    callback runs before or after those lines, never in between.  The
    branches of lines 374-565 are one step each, up to the flip of line
    471: a callback that runs meanwhile only appends to [emptyRequests]
    and inserts into [completedRequestResults], which these lines neither
    read again nor undo.  The waits of lines 473-477 and 584-588 return
    when no request of the pool is running.  [condVar.wait] may return at
    any time (a notification or a spurious wake-up); the condition of line
    569 is then tested again under the mutex. *)
Definition step_control (cfg : Config) (i : CtlIn) (s : State) : option State :=
  match pc s with
  | LoopCond =>
      Some (set_pc (if loop_cond cfg s then Rethrow else Report) s)
  | Rethrow =>
      match callbackException s with
      | Some e => Some (set_pc (Exited (Failed (BackendFailure e))) s)
      | None => Some (set_pc Lock s)
      end
  | Lock =>
      if mutexLocked s then None
      else Some (set_pc FindErase (set_mutexLocked true s))
  | FindErase =>
      let '(rr, m) := find_erase (nextFrameIdToShow s) (completedRequestResults s) in
      Some (set_pc (Dispatch rr)
              (set_mutexLocked false (set_completedRequestResults m s)))
  | Dispatch rr =>
      if negb (N.eqb (output rr) nullptr) then Some (deliver cfg rr i s)
      else if negb (bool_decide (emptyRequests s = [])) && capOpened s
           then Some (start_new cfg i s)
           else Some (set_pc WaitLock s)
  | TabWait prevMode =>
      if pool_idle cfg (isUserSpecifiedMode s) s
      then Some (tab_rebuild cfg prevMode i s)
      else None
  | WaitLock =>
      if mutexLocked s then None
      else Some (set_pc WaitCheck (set_mutexLocked true s))
  | WaitCheck =>
      Some (set_pc (if wait_cond s then Waiting else LoopCond)
              (set_mutexLocked false s))
  | Waiting =>
      if mutexLocked s then None
      else Some (set_pc WaitCheck (set_mutexLocked true s))
  | Report =>
      if pool_idle cfg (isUserSpecifiedMode s) s
      then Some (set_pc (Exited Completed) s)
      else None
  | Exited _ => None
  end.

Definition step (cfg : Config) (e : Event) (s : State) : option State :=
  match e with
  | Control i => step_control cfg i s
  | Completion slot o => step_completion slot o s
  end.

(** A schedule is run from left to right; it fails when one of its events
    cannot happen. *)
Fixpoint run (cfg : Config) (sched : list Event) (s : State) : option State :=
  match sched with
  | [] => Some s
  | e :: rest =>
      match step cfg e s with
      | Some s' => run cfg rest s'
      | None => None
      end
  end.

(** ** States a run can reach *)

(** What every reachable state satisfies about the requests: a request is
    never both free and running, nor running twice; a running request was
    started in the mode of its pool; outside the TAB handler the free
    requests belong to the active pool. *)
Record Inv (cfg : Config) (s : State) : Prop := mkInv {
  inv_nodup : NoDup (emptyRequests s ++ (cRequest <$> inflight s));
  inv_pool : ∀ c, c ∈ inflight s → cRequest c ∈ pool cfg (cFrameMode c);
  inv_free : (∀ p, pc s ≠ TabWait p) →
             ∀ r, r ∈ emptyRequests s → r ∈ pool cfg (isUserSpecifiedMode s);
  inv_tab : ∀ p, pc s = TabWait p → isUserSpecifiedMode s = negb p;
  inv_busy : pc s ≠ Exited (Failed RequestBusy);
  inv_mutex : mutexLocked s =
              match pc s with FindErase | WaitCheck => true | _ => false end
}.

(** What every reachable state satisfies about the order of the frames. *)
Record Ordered (s : State) : Prop := mkOrdered {
  ord_len : length (submitted s) = nextFrameId s;
  ord_le : nextFrameIdToShow s ≤ nextFrameId s;
  ord_inflight : ∀ c, c ∈ inflight s → submitted s !! cFrameId c = Some (cFrame c);
  ord_completed : ∀ k r, completedRequestResults s !! k = Some r →
                         submitted s !! k = Some (frame r);
  ord_local : ∀ rr, pc s = Dispatch rr → output rr ≠ nullptr →
                    submitted s !! nextFrameIdToShow s = Some (frame rr);
  ord_ids : shownId <$> shown s = seq 0 (nextFrameIdToShow s);
  ord_frames : (λ d, frame (shownResult d)) <$> shown s
               = take (nextFrameIdToShow s) (submitted s)
}.



(** ** Concrete runs *)

(** Two requests, the output window shown, the input not looped. *)
Definition cfg2 : Config :=
  {| FLAGS_nireq := 2; FLAGS_no_show := false; FLAGS_loop_input := false;
     clock0 := 0%Z |}.

(** One request. *)
Definition cfg1 : Config :=
  {| FLAGS_nireq := 1; FLAGS_no_show := false; FLAGS_loop_input := false;
     clock0 := 0%Z |}.

(** A step of the control thread at time [t]: the key pressed is [k], and
    the capture has a frame to give. *)
Definition press (t k : Z) : Event :=
  Control {| now := t; key := k; readOk := true; readFrame := Image (Z.to_nat t);
             reopenOk := false |}.

(** The same with no key pressed ([cv::waitKey] returns -1). *)
Definition tick (t : Z) : Event := press t (-1).

(** A step at which the capture has no frame left. *)
Definition eof (t : Z) : Event :=
  Control {| now := t; key := (-1)%Z; readOk := false; readFrame := EmptyMat;
             reopenOk := false |}.

(** The four steps from the loop condition to the branch of line 374. *)
Definition to_dispatch (t : Z) : list Event := [tick t; tick t; tick t; tick t].

(** Frames 0 and 1 are submitted on the two user-specified requests and
    frame 0 completes; the control thread has then looked it up and stands
    at line 374 with it. *)
Definition sched_two_started : list Event :=
  to_dispatch 1 ++ [tick 2] ++ to_dispatch 3 ++ [tick 4]
  ++ [Completion 0 (Ready 5%N)] ++ to_dispatch 5.

(** ... frame 0 is shown and TAB is pressed: the control thread stands in
    the TAB handler, the flag flipped. *)
Definition sched_tab_pressed : list Event :=
  sched_two_started ++ [press 6 9].

(** ... the handler finishes; frame 1 then completes, under the other mode,
    and is looked up. *)
Definition sched_after_switch : list Event :=
  sched_tab_pressed ++ [tick 7] ++ [Completion 0 (Ready 7%N)] ++ to_dispatch 8.

(** ... and frame 1 is shown. *)
Definition sched_second_shown : list Event :=
  sched_after_switch ++ [tick 9].




(** One request: frame 0 is submitted, the control thread finds nothing to
    do and blocks in [condVar.wait]; the callback of frame 0 raises; the
    control thread wakes up and runs until [main] returns. *)
Definition sched_callback_throws : list Event :=
  to_dispatch 1 ++ [tick 2] ++ to_dispatch 3 ++ [tick 4; tick 4; tick 4]
  ++ [Completion 0 (Throws 7)]
  ++ [tick 5; tick 5; tick 5; tick 5].

(** The state a schedule leads to from the start (the start itself when
    the schedule cannot run). *)
Definition state_after (cfg : Config) (sched : list Event) : State :=
  default (init cfg) (run cfg sched (init cfg)).

(** A state whose reorder buffer already holds sequence id 0, while a
    closure for the same id is running. *)
Definition dup_result : RequestResult :=
  {| frame := Image 1; output := 5%N; startTime := 1%Z; isSameMode := true |}.

Definition dup_closure : Closure :=
  {| cRequest := UserSpecifiedRequest 0; cFrameId := 0; cFrameMode := true;
     cFrame := Image 2; cStartTime := 2%Z |}.

Definition dup_state : State :=
  set_inflight [dup_closure]
    (set_completedRequestResults {[ 0 := dup_result ]}
       (set_emptyRequests [UserSpecifiedRequest 1] (init cfg2))).

(** What the callback of frame 1 stores in [sched_after_switch]: the frame
    was started in user-specified mode and completes in the other one. *)
Definition late_result : RequestResult :=
  {| frame := Image 4; output := 7%N; startTime := 4%Z; isSameMode := false |}.

(** One request: frame 0 is submitted, completes and is shown; the capture
    then has no frame left, the loop ends and [main] returns. *)
Definition sched_one_frame : list Event :=
  to_dispatch 1 ++ [tick 2] ++ [Completion 0 (Ready 5%N)]
  ++ to_dispatch 3 ++ [tick 4] ++ to_dispatch 5 ++ [eof 6] ++ [tick 7; tick 8].

(** Two requests: frame 0 is submitted, then the capture has no frame left;
    the control thread is back at the loop condition with frame 0 running. *)
Definition sched_exhausted_one_running : list Event :=
  to_dispatch 1 ++ [tick 2] ++ to_dispatch 3 ++ [eof 4].

(** ** Further properties of the states of a run *)

(** Sequence ids are used once: the closures that are running carry
    different ids, none of which is in the reorder buffer; every id that is
    running or buffered lies between the cursor and [nextFrameId]. *)
Record Fresh (s : State) : Prop := mkFresh {
  fr_le : nextFrameIdToShow s ≤ nextFrameId s;
  fr_nodup : NoDup (cFrameId <$> inflight s);
  fr_inflight : ∀ c, c ∈ inflight s →
                  nextFrameIdToShow s ≤ cFrameId c < nextFrameId s
                  ∧ completedRequestResults s !! cFrameId c = None;
  fr_completed : ∀ k r, completedRequestResults s !! k = Some r →
                   nextFrameIdToShow s ≤ k < nextFrameId s;
  fr_local : ∀ rr, pc s = Dispatch rr → output rr ≠ nullptr →
               completedRequestResults s !! nextFrameIdToShow s = None
               ∧ (nextFrameIdToShow s ∉ cFrameId <$> inflight s)
               ∧ nextFrameIdToShow s < nextFrameId s
}.

(** The result the control thread holds at line 374 and has not shown yet:
    one when it is not null, none otherwise. *)
Definition pending (p : Pc) : nat :=
  match p with
  | Dispatch rr => if N.eqb (output rr) nullptr then 0 else 1
  | _ => 0
  end.

(** An event in which the backend neither raises nor hands a null buffer. *)
Definition sound (e : Event) : bool :=
  match e with
  | Control _ => true
  | Completion _ (Ready buffer) => negb (N.eqb buffer nullptr)
  | Completion _ (Throws _) => false
  end.

(** Every frame started and not shown is in the buffer, running, or held
    at line 374. *)
Record Counted (s : State) : Prop := mkCounted {
  cnt_nonnull : ∀ k r, completedRequestResults s !! k = Some r → output r ≠ nullptr;
  cnt_sum : nextFrameId s
            = nextFrameIdToShow s + size (completedRequestResults s)
              + length (inflight s) + pending (pc s)
}.

(** The end of a mode's window in the report, lines 604-606 and 617-619:
    [lastEndTime] unless it is the epoch, and then the clock [t]. *)
Definition report_endTime (m : ModeInfo) (t : time_point) : time_point :=
  if Z.eqb (lastEndTime m) 0 then t else lastEndTime m.

(** The report takes the clock as the end of the window of the mode that is
    active: outside the TAB handler the active mode's [lastEndTime] is the
    epoch. *)
Definition window_open (s : State) : Prop :=
  (∀ p, pc s ≠ TabWait p) →
  lastEndTime (modeInfo_at (isUserSpecifiedMode s) (modeInfo s)) = 0%Z.

(** While no callback has raised, no request of the active pool is lost:
    outside the TAB handler each is free or running. *)
Definition Slots (cfg : Config) (s : State) : Prop :=
  callbackException s = None → (∀ p, pc s ≠ TabWait p) →
  ∀ r, r ∈ pool cfg (isUserSpecifiedMode s) →
       r ∈ emptyRequests s ∨ r ∈ cRequest <$> inflight s.

(** An event that is not the TAB key. *)
Definition no_tab (e : Event) : bool :=
  match e with
  | Control i => negb (is_tab_key (key i))
  | Completion _ _ => true
  end.

(** What the states of a run without TAB satisfy: the mode is the
    user-specified one and every frame shown has been counted. *)
Record Steady (s : State) : Prop := mkSteady {
  st_mode : isUserSpecifiedMode s = true;
  st_notab : ∀ p, pc s ≠ TabWait p;
  st_inflight : ∀ c, c ∈ inflight s → cFrameMode c = true;
  st_completed : ∀ k r, completedRequestResults s !! k = Some r →
                   isSameMode r = true;
  st_local : ∀ rr, pc s = Dispatch rr → output rr ≠ nullptr → isSameMode rr = true;
  st_count : framesCount (ofUserSpecified (modeInfo s)) = nextFrameIdToShow s;
  st_shown : ∀ d, d ∈ shown s →
               latencyDivisor d = S (shownId d) ∧ isSameMode (shownResult d) = true
}.

(** What the states of a run with [FLAGS_nireq = 0] satisfy. *)
Record Starved (s : State) : Prop := mkStarved {
  sv_mode : isUserSpecifiedMode s = true;
  sv_cap : capOpened s = true;
  sv_free : emptyRequests s = [];
  sv_buffer : completedRequestResults s = ∅;
  sv_exn : callbackException s = None;
  sv_inflight : inflight s = [];
  sv_next : nextFrameId s = 0;
  sv_shown : shown s = [];
  sv_pc : match pc s with
          | Dispatch rr => output rr = nullptr
          | TabWait _ | Report | Exited _ => False
          | _ => True
          end
}.

(** No request at all. *)
Definition cfg0 : Config :=
  {| FLAGS_nireq := 0; FLAGS_no_show := false; FLAGS_loop_input := false;
     clock0 := 0%Z |}.

(** * Setting up, and drawing the detections

    The parts of [main] before the loop that decide whether the demo runs:
    the command line (lines 30-49, 64-72), the configuration of the devices
    (lines 116-164), the checks of the network's inputs and output (lines
    192-258), the labels (lines 225-249); and the loop that draws the
    detections of a frame (lines 385-416). *)

(** How a piece of code ends: with a value, with an exception that [main]
    catches at lines 630-637, or by reading a vector past its end, which
    the language leaves undefined. *)
Inductive Outcome (A : Type) : Type :=
  | Value (a : A)
  | Raised (what : string)
  | OutOfRange.

Arguments Value {A} a.
Arguments Raised {A} what.
Arguments OutOfRange {A}.

(** ** The command line, lines 30-49 *)

Record CmdLine : Type := mkCmdLine {
  FLAGS_h : bool;
  FLAGS_i : string;
  FLAGS_m : string
}.

Definition ParseAndCheckCommandLine (f : CmdLine) : Outcome bool :=
  if FLAGS_h f then Value false
  else if bool_decide (FLAGS_i f = "") then Raised "Parameter -i is not set"
  else if bool_decide (FLAGS_m f = "") then Raised "Parameter -m is not set"
  else Value true.

(** [main], lines 64-72 and 629-640, around the rest of its body: the exit
    status and what is written to [std::cerr]; nothing is said of a body
    that reads past the end of a vector. *)
Definition main_around (f : CmdLine) (body : Outcome unit)
  : option (Z * option string) :=
  match ParseAndCheckCommandLine f with
  | Value false => Some (0%Z, None)
  | Value true =>
      match body with
      | Value _ => Some (0%Z, None)
      | Raised what => Some (1%Z, Some ("[ ERROR ] " +:+ what))
      | OutOfRange => None
      end
  | Raised what => Some (1%Z, Some ("[ ERROR ] " +:+ what))
  | OutOfRange => None
  end.

(** ** The configuration of the devices, lines 116-164 *)

(** The strings that the macros [CONFIG_KEY], [CONFIG_VALUE] and
    [CLDNN_CONFIG_KEY] of the Inference Engine headers stand for. *)
Definition KEY_CPU_THREADS_NUM : string := "CPU_THREADS_NUM".
Definition KEY_CPU_BIND_THREAD : string := "CPU_BIND_THREAD".
Definition KEY_CPU_THROUGHPUT_STREAMS : string := "CPU_THROUGHPUT_STREAMS".
Definition KEY_GPU_THROUGHPUT_STREAMS : string := "GPU_THROUGHPUT_STREAMS".
Definition KEY_CLDNN_PLUGIN_THROTTLE : string := "PLUGIN_THROTTLE".
Definition VALUE_YES : string := "YES".
Definition VALUE_NO : string := "NO".
Definition VALUE_CPU_THROUGHPUT_AUTO : string := "CPU_THROUGHPUT_AUTO".
Definition VALUE_GPU_THROUGHPUT_AUTO : string := "GPU_THROUGHPUT_AUTO".

(** [std::map::insert] on a map of strings: a key that is present keeps its
    value. *)
Definition insert_new {V : Type} (k : string) (v : V) (m : gmap string V)
  : gmap string V :=
  match m !! k with
  | Some _ => m
  | None => <[k := v]> m
  end.

(** [FLAGS_d.find("MULTI") != std::string::npos]. *)
Definition names_multi (d : string) : bool :=
  match String.index 0 "MULTI" d with Some _ => true | None => false end.

Record DeviceFlags : Type := mkDeviceFlags {
  FLAGS_d : string;
  FLAGS_nthreads : nat
}.

(** The three maps of lines 116-123. *)
Record DeviceConfigs : Type := mkDeviceConfigs {
  userSpecifiedConfig : gmap string string;
  minLatencyConfig : gmap string string;
  deviceNstreams : gmap string nat
}.

(** [deviceNstreams.count(device) > 0 ? std::to_string(deviceNstreams.at(device))
    : auto]. *)
Definition streams_value (device : string) (auto : string)
    (nstreams : gmap string nat) : string :=
  match nstreams !! device with
  | Some n => pretty n
  | None => auto
  end.

(** The body of the loop of lines 124-164 for one device.  [devices] is the
    whole set; [getConfig device key] is the number that
    [std::stoi(ie.GetConfig(device, key))] yields. *)
Definition configure_device (f : DeviceFlags) (devices : list string)
    (getConfig : string → string → nat) (c : DeviceConfigs) (device : string)
  : DeviceConfigs :=
  if bool_decide (device = "CPU") then
    let u := userSpecifiedConfig c in
    let u := if negb (FLAGS_nthreads f =? 0)
             then insert_new KEY_CPU_THREADS_NUM (pretty (FLAGS_nthreads f)) u
             else u in
    let u := if names_multi (FLAGS_d f) && bool_decide ("GPU" ∈ devices)
             then insert_new KEY_CPU_BIND_THREAD VALUE_NO u
             else insert_new KEY_CPU_BIND_THREAD VALUE_YES u in
    let u := insert_new KEY_CPU_THROUGHPUT_STREAMS
               (streams_value device VALUE_CPU_THROUGHPUT_AUTO (deviceNstreams c)) u in
    {| userSpecifiedConfig := u;
       minLatencyConfig := insert_new KEY_CPU_THROUGHPUT_STREAMS "1" (minLatencyConfig c);
       deviceNstreams := <[device := getConfig device KEY_CPU_THROUGHPUT_STREAMS]>
                           (deviceNstreams c) |}
  else if bool_decide (device = "GPU") then
    let u := insert_new KEY_GPU_THROUGHPUT_STREAMS
               (streams_value device VALUE_GPU_THROUGHPUT_AUTO (deviceNstreams c))
               (userSpecifiedConfig c) in
    let u := if names_multi (FLAGS_d f) && bool_decide ("CPU" ∈ devices)
             then insert_new KEY_CLDNN_PLUGIN_THROTTLE "1" u
             else u in
    {| userSpecifiedConfig := u;
       minLatencyConfig := insert_new KEY_GPU_THROUGHPUT_STREAMS "1" (minLatencyConfig c);
       deviceNstreams := <[device := getConfig device KEY_GPU_THROUGHPUT_STREAMS]>
                           (deviceNstreams c) |}
  else c.

(** Lines 116-164: [devices] lists the elements of the set of line 119 in
    its order, [nstreams] is what [parseValuePerDevice] returned. *)
Definition configure_devices (f : DeviceFlags) (devices : list string)
    (nstreams : gmap string nat) (getConfig : string → string → nat)
  : DeviceConfigs :=
  foldl (configure_device f devices getConfig)
    {| userSpecifiedConfig := ∅; minLatencyConfig := ∅; deviceNstreams := nstreams |}
    devices.

(** What [userSpecifiedConfig] holds under a key when [cpu] and [gpu] tell
    whether "CPU" and "GPU" have been gone through. *)
Definition expected_user (f : DeviceFlags) (devices : list string)
    (nstreams : gmap string nat) (cpu gpu : bool) (k : string) : option string :=
  if bool_decide (k = KEY_CPU_THREADS_NUM) then
    if cpu && negb (FLAGS_nthreads f =? 0) then Some (pretty (FLAGS_nthreads f))
    else None
  else if bool_decide (k = KEY_CPU_BIND_THREAD) then
    if cpu
    then Some (if names_multi (FLAGS_d f) && bool_decide ("GPU" ∈ devices)
               then VALUE_NO else VALUE_YES)
    else None
  else if bool_decide (k = KEY_CPU_THROUGHPUT_STREAMS) then
    if cpu then Some (streams_value "CPU" VALUE_CPU_THROUGHPUT_AUTO nstreams)
    else None
  else if bool_decide (k = KEY_GPU_THROUGHPUT_STREAMS) then
    if gpu then Some (streams_value "GPU" VALUE_GPU_THROUGHPUT_AUTO nstreams)
    else None
  else if bool_decide (k = KEY_CLDNN_PLUGIN_THROTTLE) then
    if gpu && names_multi (FLAGS_d f) && bool_decide ("CPU" ∈ devices)
    then Some "1" else None
  else None.

(** The same for [minLatencyConfig]. *)
Definition expected_min (cpu gpu : bool) (k : string) : option string :=
  if bool_decide (k = KEY_CPU_THROUGHPUT_STREAMS) then
    if cpu then Some "1" else None
  else if bool_decide (k = KEY_GPU_THROUGHPUT_STREAMS) then
    if gpu then Some "1" else None
  else None.

(** What holds of the three maps after the devices [l] have been gone
    through. *)
Definition configured (f : DeviceFlags) (devices : list string)
    (nstreams : gmap string nat) (l : list string) (c : DeviceConfigs) : Prop :=
  (∀ k, userSpecifiedConfig c !! k
        = expected_user f devices nstreams
            (bool_decide ("CPU" ∈ l)) (bool_decide ("GPU" ∈ l)) k)
  ∧ (∀ k, minLatencyConfig c !! k
          = expected_min (bool_decide ("CPU" ∈ l)) (bool_decide ("GPU" ∈ l)) k)
  ∧ ("CPU" ∉ l → deviceNstreams c !! "CPU" = nstreams !! "CPU")
  ∧ ("GPU" ∉ l → deviceNstreams c !! "GPU" = nstreams !! "GPU").

(** ** The inputs of the network, lines 186-214 *)

(** What the loop of lines 192-214 has assigned so far; [netInputDims] are
    the dimensions from which [netInputHeight] and [netInputWidth] are
    read, none before the first assignment. *)
Record InputsSeen : Type := mkInputsSeen {
  imageInputName : string;
  imageInfoInputName : string;
  netInputDims : option (list N)
}.

(** The message of lines 209-212 for an input. *)
Definition unsupported_message (item : string * list N) : string :=
  "Unsupported " +:+ pretty (length item.2) +:+ "D "
  +:+ "input layer '" +:+ item.1 +:+ "'. "
  +:+ "Only 2D and 4D input layers are supported".

(** The body of the loop for one entry of [inputInfo]: its name and the
    dimensions of its tensor. *)
Definition check_input (acc : InputsSeen) (item : string * list N)
  : Outcome InputsSeen :=
  if length item.2 =? 4 then
    Value {| imageInputName := item.1;
             imageInfoInputName := imageInfoInputName acc;
             netInputDims := Some item.2 |}
  else if length item.2 =? 2 then
    Value {| imageInputName := imageInputName acc;
             imageInfoInputName := item.1;
             netInputDims := netInputDims acc |}
  else Raised (unsupported_message item).

Fixpoint check_inputs_from (acc : InputsSeen) (items : list (string * list N))
  : Outcome InputsSeen :=
  match items with
  | [] => Value acc
  | item :: rest =>
      match check_input acc item with
      | Value acc' => check_inputs_from acc' rest
      | Raised what => Raised what
      | OutOfRange => OutOfRange
      end
  end.

Definition check_inputs (inputInfo : list (string * list N)) : Outcome InputsSeen :=
  check_inputs_from
    {| imageInputName := ""; imageInfoInputName := ""; netInputDims := None |}
    inputInfo.

(** An input of two or of four dimensions. *)
Definition is_supported (item : string * list N) : bool :=
  (length item.2 =? 4) || (length item.2 =? 2).

(** ** The labels and the output of the network, lines 216-258 *)

(** The conversion of an integer to [int]. *)
Definition to_int (z : Z) : Z := ((z + 2 ^ 31) mod 2 ^ 32 - 2 ^ 31)%Z.

(** An operation of the network's graph: its name, the name of its type,
    and [num_classes] when it is a [DetectionOutput]. *)
Record Op : Type := mkOp {
  friendly_name : string;
  type_name : string;
  detection_output : option Z
}.

(** Lines 225-242.  [function] is the graph of the network, absent for an
    IR older than version 10. *)
Definition find_num_classes (function : option (list Op)) (outputName : string)
    (labels : list string) : Outcome Z :=
  match function with
  | Some ops =>
      match list_find (λ op, friendly_name op = outputName) ops with
      | Some (_, op) =>
          match detection_output op with
          | Some num_classes => Value num_classes
          | None =>
              Raised ("Object Detection network output layer("
                      +:+ friendly_name op
                      +:+ ") should be DetectionOutput, but was " +:+ type_name op)
          end
      | None => Value 0%Z
      end
  | None =>
      if negb (bool_decide (labels = []))
      then Raised "Class labels are not supported with IR version older than 10"
      else Value 0%Z
  end.

(** Lines 244-249. *)
Definition fix_labels (labels : list string) (num_classes : Z) : list string :=
  if negb (to_int (Z.of_nat (length labels)) =? num_classes)%Z then
    if (to_int (Z.of_nat (length labels)) =? num_classes - 1)%Z
    then "fake" :: labels
    else []
  else labels.

(** Lines 250-258: [maxProposalCount] and [objectSize]. *)
Definition check_output_dims (outputDims : list N) : Outcome (Z * Z) :=
  match outputDims !! 2, outputDims !! 3 with
  | Some d2, Some d3 =>
      if negb (to_int (Z.of_N d3) =? 7)%Z
      then Raised "Output should have 7 as a last dimension"
      else if negb (length outputDims =? 4)
           then Raised "Incorrect output dimensions for SSD"
           else Value (to_int (Z.of_N d2), to_int (Z.of_N d3))
  | _, _ => OutOfRange
  end.

(** What lines 216-258 establish. *)
Record OutputSeen : Type := mkOutputSeen {
  outputName : string;
  num_classes : Z;
  labels : list string;
  maxProposalCount : Z;
  objectSize : Z
}.

(** Lines 216-258: [outputInfo] lists the outputs of the network with the
    dimensions of their tensors, [labels0] is what was read from the labels
    file. *)
Definition check_outputs (outputInfo : list (string * list N))
    (function : option (list Op)) (labels0 : list string) : Outcome OutputSeen :=
  match outputInfo with
  | [(name, outputDims)] =>
      match find_num_classes function name labels0 with
      | Value n =>
          match check_output_dims outputDims with
          | Value (count, size) =>
              Value {| outputName := name; num_classes := n;
                       labels := fix_labels labels0 n;
                       maxProposalCount := count; objectSize := size |}
          | Raised what => Raised what
          | OutOfRange => OutOfRange
          end
      | Raised what => Raised what
      | OutOfRange => OutOfRange
      end
  | _ => Raised "This demo accepts networks having only one output"
  end.

(** ** Drawing the detections, lines 385-416 *)

(** What is drawn on the frame. *)
Inductive Drawing (F : Type) : Type :=
  | PutText (text : string) (x y : F)
  | Rectangle (x0 y0 x1 y1 : F).

Arguments PutText {F} text x y.
Arguments Rectangle {F} x0 y0 x1 y1.

(** The text of lines 409-410 without the confidence: [label] is an [int],
    compared with [labels.size()] after its conversion to [size_t]. *)
Definition label_name (labels : list string) (label : Z) : string :=
  if (label mod 2 ^ 64 <? Z.of_nat (length labels))%Z
  then default "" (labels !! Z.to_nat (label mod 2 ^ 64))
  else "label #" +:+ pretty label.

Section Detections.
(** The [float]s and what the loop does with them. *)
Context {F : Type}.
Variable is_negative : F → bool.       (* x < 0 *)
Variable exceeds : F → F → bool.       (* x > y *)
Variable float_to_int : F → Z.         (* static_cast<int>(x) *)
Variable scaled : F → N → F.           (* x * width, x * height *)
Variable minus_5 : F → F.              (* y - 5 *)
Variable fixed_3 : F → string.         (* std::fixed, std::setprecision(3) *)

(** The memory [detections] points to, by index. *)
Variable detections : nat → F.
Variable objectSize : nat.
Variable width height : N.
Variable labels : list string.
Variable FLAGS_t : F.

(** What lines 404-415 draw for the detection at index [i]. *)
Definition draw_detection (i : nat) : list (Drawing F) :=
  let confidence := detections (i * objectSize + 2) in
  let label := float_to_int (detections (i * objectSize + 1)) in
  let xmin := scaled (detections (i * objectSize + 3)) width in
  let ymin := scaled (detections (i * objectSize + 4)) height in
  let xmax := scaled (detections (i * objectSize + 5)) width in
  let ymax := scaled (detections (i * objectSize + 6)) height in
  [PutText (label_name labels label +:+ (":" +:+ fixed_3 confidence))
     xmin (minus_5 ymin);
   Rectangle xmin ymin xmax ymax].

(** The loop from index [i] on, with [n] indices left below
    [maxProposalCount]. *)
Fixpoint draw_detections_from (n i : nat) : list (Drawing F) :=
  match n with
  | 0 => []
  | S n' =>
      if is_negative (detections (i * objectSize + 0)) then []
      else (if exceeds (detections (i * objectSize + 2)) FLAGS_t
            then draw_detection i else [])
           ++ draw_detections_from n' (S i)
  end.

(** Lines 385-416. *)
Definition draw_detections (maxProposalCount : Z) : list (Drawing F) :=
  draw_detections_from (Z.to_nat maxProposalCount) 0.
End Detections.

(** * Proofs *)

(** ** Lemmas on the pools and on lists of requests *)

Lemma pool_NoDup cfg mode : NoDup (pool cfg mode).
Proof.
  destruct mode; simpl.
  - unfold userSpecifiedInferRequests. apply NoDup_fmap_2.
    + intros i j Hij. by inversion Hij.
    + apply NoDup_seq.
  - apply NoDup_singleton.
Qed.


Lemma pool_disjoint cfg m r : r ∈ pool cfg m → r ∉ pool cfg (negb m).
Proof.
  destruct m; simpl; unfold userSpecifiedInferRequests.
  - intros (i & -> & _)%list_elem_of_fmap. by intros ?%list_elem_of_singleton.
  - intros ->%list_elem_of_singleton. by intros (i & ? & _)%list_elem_of_fmap.
Qed.

Lemma busy_spec r s : busy r s = true ↔ r ∈ cRequest <$> inflight s.
Proof. unfold busy. by rewrite bool_decide_eq_true. Qed.

Lemma busy_false r s : busy r s = false ↔ r ∉ cRequest <$> inflight s.
Proof. unfold busy. by rewrite bool_decide_eq_false. Qed.

Lemma pool_idle_spec cfg mode s :
  pool_idle cfg mode s = true ↔
  ∀ r, r ∈ pool cfg mode → r ∉ cRequest <$> inflight s.
Proof.
  unfold pool_idle. rewrite forallb_forall. split.
  - intros H r Hr. apply busy_false, negb_true_iff, H. by apply list_elem_of_In.
  - intros H r Hr. apply negb_true_iff, busy_false, H. by apply list_elem_of_In.
Qed.

Lemma elem_of_list_delete {A} (l : list A) i x : x ∈ delete i l → x ∈ l.
Proof. intros H. eapply elem_of_sublist; [done | apply sublist_delete]. Qed.

Lemma fmap_list_delete {A B} (f : A → B) (l : list A) i :
  f <$> (delete i l) = delete i (f <$> l).
Proof.
  revert i. induction l as [|x l IH]; intros [|i]; simpl; try done.
  by rewrite <- IH.
Qed.

(** Removing the element at [i] from a list without duplicates leaves a
    list that does not hold it. *)
Lemma NoDup_delete_lookup {A} (l : list A) i x :
  NoDup l → l !! i = Some x → (x ∉ delete i l) ∧ NoDup (delete i l).
Proof.
  intros Hnd Hi. split; [|eapply sublist_NoDup; [done | apply sublist_delete]].
  rewrite delete_take_drop.
  rewrite <- (take_drop_middle l i x Hi) in Hnd.
  apply NoDup_app in Hnd as (_ & Hdisj & Hnd).
  apply NoDup_cons in Hnd as [Hx _].
  rewrite elem_of_app. intros [Hin | Hin]; [|done].
  apply (Hdisj x Hin). by left.
Qed.

(** ** The invariant on the requests is kept by every step *)

Lemma Inv_init cfg : Inv cfg (init cfg).
Proof.
  split; simpl; try done.
  - rewrite app_nil_r. apply (pool_NoDup cfg true).
  - by intros c ?%elem_of_nil.
Qed.

Lemma Inv_completion cfg slot o s s' :
  Inv cfg s → step_completion slot o s = Some s' → Inv cfg s'.
Proof.
  intros [Hnd Hpool Hfree Htab Hbusy Hmx] Hstep.
  unfold step_completion in Hstep.
  destruct (inflight s !! slot) as [c|] eqn:Hc; [|done].
  destruct (mutexLocked s) eqn:Hm; [done|]. simplify_eq.
  assert (Hcin : c ∈ inflight s) by (by eapply list_elem_of_lookup_2).
  apply NoDup_app in Hnd as (HndE & Hdisj & HndI).
  assert (Hci : (cRequest <$> inflight s) !! slot = Some (cRequest c))
    by (by rewrite list_lookup_fmap, Hc).
  destruct (NoDup_delete_lookup _ _ _ HndI Hci) as [Hnotin HndD].
  assert (HnotE : cRequest c ∉ emptyRequests s).
  { intros HE. apply (Hdisj _ HE). by eapply list_elem_of_lookup_2. }
  assert (Hnd0 : NoDup (emptyRequests s ++ (cRequest <$> delete slot (inflight s)))).
  { rewrite fmap_list_delete. apply NoDup_app. split_and!; [done| |done].
    intros r Hr Hr'. apply (Hdisj r Hr). by eapply elem_of_list_delete. }
  assert (Hpool' : ∀ c', c' ∈ delete slot (inflight s) →
                         cRequest c' ∈ pool cfg (cFrameMode c')).
  { intros c' Hc'. apply Hpool. by eapply elem_of_list_delete. }
  destruct o as [buffer | e]; simpl.
  - destruct (eqb (isUserSpecifiedMode s) (cFrameMode c)) eqn:Hmode; simpl.
    + apply eqb_prop in Hmode.
      split; simpl; try done; try congruence.
      * rewrite fmap_list_delete, <- (assoc_L (++)). apply NoDup_app.
        split_and!; [done| |].
        -- intros r Hr [->%list_elem_of_singleton | Hr']%elem_of_app; [done|].
           apply (Hdisj r Hr). by eapply elem_of_list_delete.
        -- simpl. by apply NoDup_cons.
      * intros Hpc r [Hr | ->%list_elem_of_singleton]%elem_of_app;
          [by apply Hfree|]. rewrite Hmode. by apply Hpool.
    + split; simpl; try done; congruence.
  - destruct (callbackException s); split; simpl; try done; congruence.
Qed.

Lemma Inv_control cfg i s s' :
  Inv cfg s → step_control cfg i s = Some s' → Inv cfg s'.
Proof.
  intros [Hnd Hpool Hfree Htab Hbusy Hmx] Hstep.
  unfold step_control in Hstep.
  destruct (pc s) eqn:Hpc; rewrite ?Hmx in Hstep; simpl in Hstep.
  - (* LoopCond *)
    simplify_eq. split; simpl; try done.
    + intros _. apply Hfree. congruence.
    + by destruct (loop_cond cfg s).
    + by destruct (loop_cond cfg s).
    + by destruct (loop_cond cfg s).
  - (* Rethrow *)
    destruct (callbackException s); simplify_eq; split; simpl; try done;
      intros _; apply Hfree; congruence.
  - (* Lock *)
    simplify_eq. split; simpl; try done. intros _; apply Hfree; congruence.
  - (* FindErase *)
    destruct (find_erase _ _) as [rr m]. simplify_eq.
    split; simpl; try done. intros _; apply Hfree; congruence.
  - (* Dispatch *)
    assert (Hfree' : ∀ r, r ∈ emptyRequests s → r ∈ pool cfg (isUserSpecifiedMode s))
      by (apply Hfree; congruence).
    destruct (negb (output requestResult =? nullptr)%N).
    { simplify_eq. unfold deliver.
      destruct (isSameMode requestResult), (FLAGS_no_show cfg),
        (is_quit_key (key i)), (is_tab_key (key i));
        split; simpl; try done; try congruence; try (by intros _);
        try (by intros ? [= <-]);
        by intros Hno; destruct (Hno (isUserSpecifiedMode s)). }
    destruct (negb (bool_decide (emptyRequests s = [])) && capOpened s);
      [|simplify_eq; split; simpl; done].
    simplify_eq. unfold start_new.
    destruct (negb (readOk i)).
    { destruct (Mat_empty (readFrame i)); split; simpl; done. }
    destruct (emptyRequests s) as [|request rest] eqn:HE.
    { split; simpl; try done; by rewrite ?HE, ?Hpc. }
    simpl in Hnd. apply NoDup_cons in Hnd as [Hreq Hnd].
    rewrite not_elem_of_app in Hreq. destruct Hreq as [Hreq1 Hreq2].
    replace (busy request (set_emptyRequests rest s)) with false
      by (symmetry; by apply busy_false).
    split; simpl; try done.
    + rewrite fmap_app, (assoc_L (++)). simpl.
      apply NoDup_app. split_and!; [done| |apply NoDup_singleton].
      intros r Hr ->%list_elem_of_singleton.
      apply elem_of_app in Hr as [Hr | Hr]; done.
    + intros c [Hc | ->%list_elem_of_singleton]%elem_of_app; [by apply Hpool|].
      simpl. apply Hfree'. by left.
    + intros _ r Hr. apply Hfree'. by right.
  - (* TabWait *)
    destruct (pool_idle cfg (isUserSpecifiedMode s) s) eqn:Hidle; [|done].
    simplify_eq. unfold tab_rebuild. split; simpl; try done.
    apply NoDup_app in Hnd as (_ & _ & HndI).
    apply NoDup_app. split_and!; [apply pool_NoDup| |done].
    by apply pool_idle_spec.
  - (* WaitLock *)
    simplify_eq. split; simpl; try done. intros _; apply Hfree; congruence.
  - (* WaitCheck *)
    simplify_eq. split; simpl; try done.
    + intros _; apply Hfree; congruence.
    + by destruct (wait_cond s).
    + by destruct (wait_cond s).
    + by destruct (wait_cond s).
  - (* Waiting *)
    simplify_eq. split; simpl; try done. intros _; apply Hfree; congruence.
  - (* Report *)
    destruct (pool_idle cfg (isUserSpecifiedMode s) s); [|done].
    simplify_eq. split; simpl; try done. intros _; apply Hfree; congruence.
  - done.
Qed.

Lemma Inv_step cfg e s s' : Inv cfg s → step cfg e s = Some s' → Inv cfg s'.
Proof. destruct e; simpl; eauto using Inv_control, Inv_completion. Qed.

Lemma run_preserves (P : State → Prop) cfg :
  (∀ e s s', P s → step cfg e s = Some s' → P s') →
  ∀ sched s s', P s → run cfg sched s = Some s' → P s'.
Proof.
  intros Hstep sched. induction sched as [|e sched IH]; simpl; intros s s' HP Hrun.
  - by simplify_eq.
  - destruct (step cfg e s) as [s1|] eqn:He; [|done]. eauto.
Qed.

Lemma Inv_run cfg sched s :
  run cfg sched (init cfg) = Some s → Inv cfg s.
Proof.
  apply (run_preserves (Inv cfg)); [apply Inv_step | apply Inv_init].
Qed.

(** ** The invariant on the order of the frames is kept by every step *)

#[local] Arguments seq _ _ : simpl never.
#[local] Arguments take {_} _ _ : simpl never.

Lemma map_insert_lookup k v (m : gmap nat RequestResult) j r :
  map_insert k v m !! j = Some r → m !! j = Some r ∨ (j = k ∧ r = v).
Proof.
  unfold map_insert. destruct (m !! k) eqn:Hk; [by left|].
  destruct (decide (k = j)) as [->|Hne].
  - rewrite lookup_insert_eq. intros [= <-]. by right.
  - rewrite lookup_insert_ne by done. by left.
Qed.

Lemma find_erase_found k (m : gmap nat RequestResult) rr m' :
  find_erase k m = (rr, m') → output rr ≠ nullptr →
  m !! k = Some rr ∧ m' = delete k m.
Proof.
  unfold find_erase. destruct (m !! k); intros [= <- <-]; [done|].
  simpl. done.
Qed.

Lemma find_erase_lookup k (m : gmap nat RequestResult) rr m' j r :
  find_erase k m = (rr, m') → m' !! j = Some r → m !! j = Some r.
Proof.
  unfold find_erase. destruct (m !! k); intros [= <- <-]; [|done].
  by intros [_ ?]%lookup_delete_Some.
Qed.

Lemma Ordered_init cfg : Ordered (init cfg).
Proof.
  split; simpl; try done.
  by intros c ?%elem_of_nil.
Qed.

Lemma Ordered_completion slot o s s' :
  Ordered s → step_completion slot o s = Some s' → Ordered s'.
Proof.
  intros [Hlen Hle Hin Hcomp Hloc Hids Hfr] Hstep.
  unfold step_completion in Hstep.
  destruct (inflight s !! slot) as [c|] eqn:Hc; [|done].
  destruct (mutexLocked s); [done|]. simplify_eq.
  assert (Hcin : c ∈ inflight s) by (by eapply list_elem_of_lookup_2).
  assert (Hin' : ∀ c', c' ∈ delete slot (inflight s) →
                       submitted s !! cFrameId c' = Some (cFrame c')).
  { intros c' Hc'. apply Hin. by eapply elem_of_list_delete. }
  destruct o as [buffer | e]; simpl.
  - assert (Hcomp' : ∀ k r,
      map_insert (cFrameId c)
        {| frame := cFrame c; output := buffer; startTime := cStartTime c;
           isSameMode := eqb (cFrameMode c) (isUserSpecifiedMode s) |}
        (completedRequestResults s) !! k = Some r →
      submitted s !! k = Some (frame r)).
    { intros k r [Hk | [-> ->]]%map_insert_lookup; [by apply Hcomp|].
      simpl. by apply Hin. }
    destruct (eqb (isUserSpecifiedMode s) (cFrameMode c)); split; simpl; done.
  - destruct (callbackException s); split; simpl; done.
Qed.

Lemma Ordered_control cfg i s s' :
  Ordered s → step_control cfg i s = Some s' → Ordered s'.
Proof.
  intros [Hlen Hle Hin Hcomp Hloc Hids Hfr] Hstep.
  unfold step_control in Hstep.
  destruct (pc s) eqn:Hpc; simpl in Hstep.
  - simplify_eq. split; simpl; try done. by destruct (loop_cond cfg s).
  - destruct (callbackException s); simplify_eq; split; simpl; done.
  - destruct (mutexLocked s); simplify_eq. split; simpl; done.
  - destruct (find_erase _ _) as [rr m] eqn:Hfe. simplify_eq.
    split; simpl; try done.
    + intros k r Hk. apply Hcomp. by eapply find_erase_lookup.
    + intros ? [= <-] Hout.
      destruct (find_erase_found _ _ _ _ Hfe Hout) as [Hfound _]. by apply Hcomp.
  - destruct (negb (output requestResult =? nullptr)%N) eqn:Hout.
    { apply negb_true_iff, N.eqb_neq in Hout.
      specialize (Hloc _ eq_refl Hout).
      assert (nextFrameIdToShow s < nextFrameId s)
        by (rewrite <- Hlen; by eapply lookup_lt_Some).
      simplify_eq. unfold deliver.
      destruct (isSameMode requestResult), (FLAGS_no_show cfg),
        (is_quit_key (key i)), (is_tab_key (key i));
        split; simpl; try done; try lia;
        try (by rewrite fmap_app, Hids, seq_S);
        by rewrite fmap_app, Hfr; erewrite take_S_r. }
    destruct (negb (bool_decide (emptyRequests s = [])) && capOpened s);
      [|simplify_eq; split; simpl; done].
    simplify_eq. unfold start_new.
    destruct (negb (readOk i)).
    { destruct (Mat_empty (readFrame i)); split; simpl; done. }
    destruct (emptyRequests s) as [|request rest] eqn:HE.
    { split; simpl; try done; by rewrite ?Hpc. }
    destruct (busy request (set_emptyRequests rest s)); [split; simpl; done|].
    split; simpl; try done.
    + rewrite length_app. simpl. lia.
    + lia.
    + intros c [Hc | ->%list_elem_of_singleton]%elem_of_app.
      * by apply lookup_app_l_Some, Hin.
      * simpl. rewrite <- Hlen. by rewrite list_lookup_middle.
    + intros k r Hk. by apply lookup_app_l_Some, Hcomp.
    + rewrite take_app_le by lia. done.
  - destruct (pool_idle cfg (isUserSpecifiedMode s) s); [|done].
    simplify_eq. unfold tab_rebuild. split; simpl; done.
  - destruct (mutexLocked s); simplify_eq. split; simpl; done.
  - simplify_eq. split; simpl; try done. by destruct (wait_cond s).
  - destruct (mutexLocked s); simplify_eq. split; simpl; done.
  - destruct (pool_idle cfg (isUserSpecifiedMode s) s); [|done].
    simplify_eq. split; simpl; done.
  - done.
Qed.

Lemma Ordered_step cfg e s s' : Ordered s → step cfg e s = Some s' → Ordered s'.
Proof. destruct e; simpl; eauto using Ordered_control, Ordered_completion. Qed.

Lemma Ordered_run cfg sched s :
  run cfg sched (init cfg) = Some s → Ordered s.
Proof.
  apply (run_preserves Ordered); [apply Ordered_step | apply Ordered_init].
Qed.

(** ** Runs without incident show every submitted frame *)

Lemma elem_of_list_delete_ne {A} (l : list A) i x y :
  l !! i = Some y → x ∈ l → x ≠ y → x ∈ delete i l.
Proof.
  revert i. induction l as [|z l IH]; intros [|i]; simpl; try done.
  - intros [= ->] [-> | Hx]%elem_of_cons Hne; done.
  - intros Hi [-> | Hx]%elem_of_cons Hne; [by left | right; eauto].
Qed.








(** ** What single steps do to the cursor and to the log of shown frames *)

Lemma deliver_shown cfg rr i s :
  shown (deliver cfg rr i s)
  = shown s ++ [{| shownId := nextFrameIdToShow s; shownResult := rr;
                   latencyDividend :=
                     (latencySum (modeInfo_at (isUserSpecifiedMode s) (modeInfo s))
                      + (now i - startTime rr))%Z;
                   latencyDivisor :=
                     framesCount (modeInfo_at (isUserSpecifiedMode s) (modeInfo s))
                     + (if isSameMode rr then 1 else 0) |}].
Proof.
  unfold deliver.
  destruct (isSameMode rr), (isUserSpecifiedMode s), (FLAGS_no_show cfg),
    (is_quit_key (key i)), (is_tab_key (key i)); simpl;
    by rewrite ?Nat.add_0_r.
Qed.

Lemma deliver_cursor cfg rr i s :
  nextFrameIdToShow (deliver cfg rr i s) = S (nextFrameIdToShow s).
Proof.
  unfold deliver.
  by destruct (isSameMode rr), (FLAGS_no_show cfg),
    (is_quit_key (key i)), (is_tab_key (key i)).
Qed.

Lemma completion_keeps_cursor slot o s s' :
  step_completion slot o s = Some s' →
  nextFrameIdToShow s' = nextFrameIdToShow s ∧ shown s' = shown s
  ∧ modeInfo s' = modeInfo s ∧ pc s' = pc s.
Proof.
  unfold step_completion. intros Hstep.
  destruct (inflight s !! slot) as [c|]; [|done].
  destruct (mutexLocked s); [done|]. simplify_eq.
  destruct o as [b|e]; simpl.
  - by destruct (eqb (isUserSpecifiedMode s) (cFrameMode c)).
  - by destruct (callbackException s).
Qed.

(** A step of the control thread moves the cursor, or shows a frame, only
    in the branch of line 374, and then does both. *)
Lemma control_cursor cfg i s s' :
  step_control cfg i s = Some s' →
  (nextFrameIdToShow s' = nextFrameIdToShow s ∧ shown s' = shown s)
  ∨ (∃ rr, pc s = Dispatch rr ∧ output rr ≠ nullptr ∧ s' = deliver cfg rr i s).
Proof.
  unfold step_control. intros Hstep.
  destruct (pc s) eqn:Hpc; simpl in Hstep.
  - simplify_eq. by left.
  - destruct (callbackException s); simplify_eq; by left.
  - destruct (mutexLocked s); simplify_eq. by left.
  - destruct (find_erase _ _). simplify_eq. by left.
  - destruct (negb (output requestResult =? nullptr)%N) eqn:Hout.
    { apply negb_true_iff, N.eqb_neq in Hout. simplify_eq. right. eauto. }
    left. destruct (negb (bool_decide (emptyRequests s = [])) && capOpened s);
      simplify_eq; [|done].
    unfold start_new. destruct (negb (readOk i)).
    { by destruct (Mat_empty (readFrame i)). }
    destruct (emptyRequests s) as [|r rest]; [done|].
    by destruct (busy r (set_emptyRequests rest s)).
  - destruct (pool_idle cfg (isUserSpecifiedMode s) s); simplify_eq. by left.
  - destruct (mutexLocked s); simplify_eq. by left.
  - simplify_eq. by left.
  - destruct (mutexLocked s); simplify_eq. by left.
  - destruct (pool_idle cfg (isUserSpecifiedMode s) s); simplify_eq. by left.
  - done.
Qed.

Lemma step_cursor cfg e s s' :
  step cfg e s = Some s' →
  (nextFrameIdToShow s' = nextFrameIdToShow s ∧ shown s' = shown s)
  ∨ (∃ rr i, e = Control i ∧ pc s = Dispatch rr ∧ output rr ≠ nullptr
             ∧ s' = deliver cfg rr i s).
Proof.
  destruct e as [i | slot o]; simpl; intros Hstep.
  - destruct (control_cursor _ _ _ _ Hstep) as [? | (rr & ? & ? & ?)]; [by left|].
    right. by exists rr, i.
  - left. by destruct (completion_keeps_cursor _ _ _ _ Hstep) as (? & ? & _).
Qed.

(** The lookup of lines 367-372 hands a non-null result to line 374 only
    when it found it under the cursor, and it erased it then. *)
Lemma lookup_found cfg i s s' rr :
  pc s = FindErase → step_control cfg i s = Some s' →
  pc s' = Dispatch rr → output rr ≠ nullptr →
  completedRequestResults s !! nextFrameIdToShow s = Some rr
  ∧ completedRequestResults s'
    = delete (nextFrameIdToShow s) (completedRequestResults s).
Proof.
  unfold step_control. intros -> Hstep Hpc Hout.
  destruct (find_erase _ _) as [r m] eqn:Hfe. simplify_eq. simpl in *.
  simplify_eq. by apply find_erase_found.
Qed.

Lemma find_erase_absent k (m : gmap nat RequestResult) :
  m !! k = None → output (find_erase k m).1 = nullptr ∧ (find_erase k m).2 = m.
Proof. unfold find_erase. by intros ->. Qed.

(** ** C1 *)




(** ** C6 *)

(** C6.  When the id [k] is not in the reorder buffer [m], the lookup of
    lines 367-371 yields the null result and gives [m] back, however often
    it is repeated; as a step of the control thread, with [k] the cursor,
    it leaves the buffer and the cursor as they are and reaches line 374
    with a null result.  The cursor moves only in the branch of line 374
    for a non-null result, by one, and such a result is only handed over
    by a lookup that found and erased it. *)
Theorem lookup_of_absent_id_changes_nothing k (m : gmap nat RequestResult) n :
  m !! k = None →
  output (find_erase k m).1 = nullptr
  ∧ (find_erase k m).2 = m
  ∧ Nat.iter n (λ m', (find_erase k m').2) m = m
  ∧ (∀ cfg i s s', pc s = FindErase → completedRequestResults s = m →
       nextFrameIdToShow s = k → step_control cfg i s = Some s' →
       completedRequestResults s' = m ∧ nextFrameIdToShow s' = k
       ∧ ∃ rr, pc s' = Dispatch rr ∧ output rr = nullptr)
  ∧ (∀ cfg e s s', step cfg e s = Some s' →
       nextFrameIdToShow s' ≠ nextFrameIdToShow s →
       ∃ rr, pc s = Dispatch rr ∧ output rr ≠ nullptr
             ∧ nextFrameIdToShow s' = S (nextFrameIdToShow s))
  ∧ (∀ cfg i s s' rr, pc s = FindErase → step_control cfg i s = Some s' →
       pc s' = Dispatch rr → output rr ≠ nullptr →
       completedRequestResults s !! nextFrameIdToShow s = Some rr).
Proof.
  intros Hk. destruct (find_erase_absent k m Hk) as [Hout Hsame].
  split_and!; try done.
  - induction n as [|n IH]; simpl; [done|]. by rewrite IH.
  - intros cfg i s s' Hpc <- <- Hstep. unfold step_control in Hstep.
    rewrite Hpc in Hstep.
    destruct (find_erase _ _) as [rr m'] eqn:Hfe. simpl in *. simplify_eq.
    simpl. eauto.
  - intros cfg e s s' Hstep Hne.
    destruct (step_cursor _ _ _ _ Hstep) as [[? _] | (rr & i & _ & ? & ? & ->)];
      [done|].
    exists rr. split_and!; [done|done|apply deliver_cursor].
  - intros cfg i s s' rr Hpc Hstep Hpc' Hnn.
    by destruct (lookup_found _ _ _ _ _ Hpc Hstep Hpc' Hnn).
Qed.

Lemma lookup_of_absent_id_changes_nothing_witness :
  ({[ 1 := dup_result ]} : gmap nat RequestResult) !! 0 = None
  ∧ Nat.iter 3 (λ m', (find_erase 0 m').2) {[ 1 := dup_result ]}
    = ({[ 1 := dup_result ]} : gmap nat RequestResult).
Proof.
  assert (H0 : ({[ 1 := dup_result ]} : gmap nat RequestResult) !! 0 = None)
    by (vm_compute; reflexivity).
  split; [exact H0|].
  by destruct (lookup_of_absent_id_changes_nothing 0 {[ 1 := dup_result ]} 3 H0)
    as (_ & _ & Hiter & _).
Defined.

(** ** C5 *)

(** In [dup_state] the reorder buffer holds a result under id 0.  The
    callback of the closure for id 0 completes: nothing is raised, the
    buffer is as before, the request joins the free ones and the loop goes
    on. *)
Lemma duplicate_insert_is_silent :
  completedRequestResults dup_state !! cFrameId dup_closure = Some dup_result
  ∧ inflight dup_state !! 0 = Some dup_closure
  ∧ step_completion 0 (Ready 9%N) dup_state
    = Some (set_inflight [] (completion_callback dup_closure (Ready 9%N) dup_state))
  ∧ callbackException (completion_callback dup_closure (Ready 9%N) dup_state) = None
  ∧ completedRequestResults (completion_callback dup_closure (Ready 9%N) dup_state)
      !! 0 = Some dup_result
  ∧ emptyRequests (completion_callback dup_closure (Ready 9%N) dup_state)
    = [UserSpecifiedRequest 1; UserSpecifiedRequest 0]
  ∧ loop_cond cfg2 (completion_callback dup_closure (Ready 9%N) dup_state) = true.
Proof. split_and!; vm_compute; reflexivity. Qed.

(** C5, as the code has it.  When the callback of a request completes and
    the reorder buffer already holds a result under its sequence id, the
    buffer keeps that result and drops the new one; no exception is
    captured and the control thread is not disturbed. *)
Theorem duplicate_id_keeps_first_result slot buffer c s s' :
  inflight s !! slot = Some c →
  is_Some (completedRequestResults s !! cFrameId c) →
  step_completion slot (Ready buffer) s = Some s' →
  completedRequestResults s' = completedRequestResults s
  ∧ callbackException s' = callbackException s
  ∧ pc s' = pc s.
Proof.
  intros Hc [r Hr] Hstep. unfold step_completion in Hstep. rewrite Hc in Hstep.
  destruct (mutexLocked s); [done|]. simplify_eq. simpl.
  unfold map_insert. rewrite Hr.
  by destruct (eqb (isUserSpecifiedMode s) (cFrameMode c)).
Qed.

Lemma duplicate_id_keeps_first_result_witness :
  is_Some (completedRequestResults dup_state !! cFrameId dup_closure)
  ∧ completedRequestResults
      (set_inflight [] (completion_callback dup_closure (Ready 9%N) dup_state))
    = completedRequestResults dup_state.
Proof.
  assert (H1 : is_Some (completedRequestResults dup_state !! cFrameId dup_closure))
    by (exists dup_result; reflexivity).
  split; [exact H1|].
  apply (duplicate_id_keeps_first_result 0 9%N dup_closure dup_state);
    [reflexivity | exact H1 | reflexivity].
Defined.

(** ** C4 *)

(** The callback keeps the first exception. *)
Lemma first_exception_wins c e s :
  callbackException (completion_callback c (Throws e) s)
  = Some (default e (callbackException s)).
Proof. simpl. destruct (callbackException s) eqn:He; simpl; by rewrite ?He. Qed.

(** At the loop condition a captured exception ends the loop: line 360 is
    not reached. *)
Lemma captured_exception_ends_loop cfg i s e :
  pc s = LoopCond → callbackException s = Some e →
  step_control cfg i s = Some (set_pc Report s).
Proof.
  intros Hpc He. unfold step_control. rewrite Hpc.
  unfold loop_cond, no_exception. rewrite He. by rewrite andb_false_r.
Qed.

(** C4, at the failing input.  In the run of [sched_callback_throws] the
    callback of frame 0 raises while the control thread is blocked in
    [condVar.wait]; the exception is captured, the loop condition ends the
    loop, and [main] returns with status 0: the exception is not rethrown. *)
Theorem callback_exception_exit_status :
  run cfg1 sched_callback_throws (init cfg1)
    = Some (state_after cfg1 sched_callback_throws)
  ∧ callbackException (state_after cfg1 sched_callback_throws) = Some 7
  ∧ pc (state_after cfg1 sched_callback_throws) = Exited Completed
  ∧ exit_status Completed = 0%Z.
Proof. split_and!; vm_compute; reflexivity. Qed.

(** ** C10 *)



(** ** C2 *)


Lemma deliver_framesCount cfg rr i s m :
  framesCount (modeInfo_at m (modeInfo (deliver cfg rr i s)))
  = framesCount (modeInfo_at m (modeInfo s))
    + (if isSameMode rr && eqb m (isUserSpecifiedMode s) then 1 else 0).
Proof.
  unfold deliver.
  destruct (isSameMode rr), m, (isUserSpecifiedMode s), (FLAGS_no_show cfg),
    (is_quit_key (key i)), (is_tab_key (key i)); simpl; lia.
Qed.



(** ** C3 *)

(** In [sched_tab_pressed] TAB was pressed in user-specified mode while
    request 1 of that mode was running.  The handler finishes at once (the
    minimum-latency request is idle) and request 1, of the previous mode's
    pool, is still running afterwards. *)
Lemma switch_leaves_previous_pool_running :
  run cfg2 sched_tab_pressed (init cfg2)
    = Some (state_after cfg2 sched_tab_pressed)
  ∧ pc (state_after cfg2 sched_tab_pressed) = TabWait true
  ∧ step cfg2 (tick 7) (state_after cfg2 sched_tab_pressed)
    = Some (state_after cfg2 (sched_tab_pressed ++ [tick 7]))
  ∧ pc (state_after cfg2 (sched_tab_pressed ++ [tick 7])) = LoopCond
  ∧ emptyRequests (state_after cfg2 (sched_tab_pressed ++ [tick 7]))
    = [MinLatencyRequest]
  ∧ pool cfg2 true = [UserSpecifiedRequest 0; UserSpecifiedRequest 1]
  ∧ busy (UserSpecifiedRequest 1) (state_after cfg2 (sched_tab_pressed ++ [tick 7]))
    = true.
Proof. split_and!; vm_compute; reflexivity. Qed.

Lemma deliver_tab cfg rr i s :
  FLAGS_no_show cfg = false → is_quit_key (key i) = false →
  is_tab_key (key i) = true →
  isUserSpecifiedMode (deliver cfg rr i s) = negb (isUserSpecifiedMode s)
  ∧ pc (deliver cfg rr i s) = TabWait (isUserSpecifiedMode s)
  ∧ emptyRequests (deliver cfg rr i s) = emptyRequests s
  ∧ inflight (deliver cfg rr i s) = inflight s.
Proof.
  intros Hs Hq Ht. unfold deliver. rewrite Hs, Hq, Ht.
  by destruct (isSameMode rr).
Qed.

(** C3, as the code has it.  The TAB handler first flips the flag, leaving
    the free requests as they are.  It then waits for the requests of the
    pool of the new mode, the mode the flag now names, and goes on only
    when none of them is running; it then makes the free requests exactly
    the requests of that pool.  The requests of the previous mode that are
    running are left running. *)
Theorem switch_waits_for_new_pool cfg sched s prev i s' :
  run cfg sched (init cfg) = Some s →
  pc s = TabWait prev →
  step_control cfg i s = Some s' →
  isUserSpecifiedMode s = negb prev
  ∧ pool_idle cfg (negb prev) s = true
  ∧ (∀ r, r ∈ pool cfg (negb prev) → r ∉ cRequest <$> inflight s)
  ∧ isUserSpecifiedMode s' = negb prev
  ∧ emptyRequests s' = pool cfg (negb prev)
  ∧ inflight s' = inflight s
  ∧ pc s' = LoopCond
  ∧ (∀ rr j t, FLAGS_no_show cfg = false → is_quit_key (key j) = false →
       is_tab_key (key j) = true →
       isUserSpecifiedMode (deliver cfg rr j t) = negb (isUserSpecifiedMode t)
       ∧ pc (deliver cfg rr j t) = TabWait (isUserSpecifiedMode t)
       ∧ emptyRequests (deliver cfg rr j t) = emptyRequests t
       ∧ inflight (deliver cfg rr j t) = inflight t).
Proof.
  intros Hrun Hpc Hstep.
  pose proof (inv_tab _ _ (Inv_run _ _ _ Hrun) _ Hpc) as Hmode.
  unfold step_control in Hstep. rewrite Hpc, Hmode in Hstep.
  destruct (pool_idle cfg (negb prev) s) eqn:Hidle; [|done].
  simplify_eq. unfold tab_rebuild. simpl. rewrite Hmode.
  split_and!; try done.
  - by apply pool_idle_spec.
  - intros rr j t. apply deliver_tab.
Qed.

Lemma switch_waits_for_new_pool_witness :
  run cfg2 sched_tab_pressed (init cfg2)
    = Some (state_after cfg2 sched_tab_pressed)
  ∧ emptyRequests (state_after cfg2 (sched_tab_pressed ++ [tick 7]))
    = pool cfg2 (negb true).
Proof.
  assert (H1 : run cfg2 sched_tab_pressed (init cfg2)
               = Some (state_after cfg2 sched_tab_pressed))
    by (vm_compute; reflexivity).
  split; [exact H1|].
  eapply (switch_waits_for_new_pool cfg2 sched_tab_pressed _ true
            {| now := 7%Z; key := (-1)%Z; readOk := true; readFrame := Image 7;
               reopenOk := false |});
    [exact H1 | vm_compute; reflexivity | vm_compute; reflexivity].
Defined.

(** ** C7 *)






(** ** C8 *)




(** ** C9 *)

(** In [sched_two_started] the control thread stands at line 374 with the
    result of frame 0 and does not hold the mutex.  With TAB pressed, its
    next step counts the frame in [modeInfo] and flips
    [isUserSpecifiedMode]. *)
Lemma metrics_and_flag_written_without_mutex :
  run cfg2 sched_two_started (init cfg2)
    = Some (state_after cfg2 sched_two_started)
  ∧ mutexLocked (state_after cfg2 sched_two_started) = false
  ∧ step cfg2 (press 6 9) (state_after cfg2 sched_two_started)
    = Some (state_after cfg2 sched_tab_pressed)
  ∧ framesCount (ofUserSpecified (modeInfo (state_after cfg2 sched_two_started))) = 0
  ∧ framesCount (ofUserSpecified (modeInfo (state_after cfg2 sched_tab_pressed))) = 1
  ∧ isUserSpecifiedMode (state_after cfg2 sched_two_started) = true
  ∧ isUserSpecifiedMode (state_after cfg2 sched_tab_pressed) = false.
Proof. split_and!; vm_compute; reflexivity. Qed.

(** The control thread changes the reorder buffer only at lines 367-372. *)
Lemma control_buffer cfg i s s' :
  step_control cfg i s = Some s' →
  completedRequestResults s' = completedRequestResults s ∨ pc s = FindErase.
Proof.
  unfold step_control. intros Hstep.
  destruct (pc s) eqn:Hpc; simpl in Hstep; try (by right).
  - simplify_eq. by left.
  - destruct (callbackException s); simplify_eq; by left.
  - destruct (mutexLocked s); simplify_eq. by left.
  - destruct (negb (output requestResult =? nullptr)%N).
    { simplify_eq. left. unfold deliver.
      by destruct (isSameMode requestResult), (FLAGS_no_show cfg),
        (is_quit_key (key i)), (is_tab_key (key i)). }
    destruct (negb (bool_decide (emptyRequests s = [])) && capOpened s);
      simplify_eq; [|by left].
    left. unfold start_new. destruct (negb (readOk i)).
    { by destruct (Mat_empty (readFrame i)). }
    destruct (emptyRequests s) as [|r rest]; [done|].
    by destruct (busy r (set_emptyRequests rest s)).
  - destruct (pool_idle cfg (isUserSpecifiedMode s) s); simplify_eq. by left.
  - destruct (mutexLocked s); simplify_eq. by left.
  - simplify_eq. by left.
  - destruct (mutexLocked s); simplify_eq. by left.
  - destruct (pool_idle cfg (isUserSpecifiedMode s) s); simplify_eq. by left.
Qed.

(** C9, as the code has it.  A completion callback runs only when the
    mutex is free, which it then holds for its whole body: never while the
    control thread is between lines 365 and 372 or inside the block of
    lines 567-573.  The control thread holds the mutex at those lines, and
    it changes the reorder buffer nowhere else.  The callbacks do not touch
    the per-mode metrics, which the control thread reads and writes
    without the mutex. *)
Theorem mutex_discipline cfg sched s e s' :
  run cfg sched (init cfg) = Some s →
  step cfg e s = Some s' →
  (mutexLocked s = true ↔ pc s = FindErase ∨ pc s = WaitCheck)
  ∧ match e with
    | Completion _ _ =>
        mutexLocked s = false ∧ pc s ≠ FindErase ∧ pc s ≠ WaitCheck
        ∧ modeInfo s' = modeInfo s
    | Control _ =>
        completedRequestResults s' ≠ completedRequestResults s →
        pc s = FindErase ∧ mutexLocked s = true
    end.
Proof.
  intros Hrun Hstep. pose proof (inv_mutex _ _ (Inv_run _ _ _ Hrun)) as Hmx.
  assert (Hiff : mutexLocked s = true ↔ pc s = FindErase ∨ pc s = WaitCheck).
  { rewrite Hmx.
    destruct (pc s); split; try done; try (intros [?|?]; done);
      intros _; first [by left | by right]. }
  split; [done|]. destruct e as [i | slot o]; simpl in Hstep.
  - intros Hne. destruct (control_buffer _ _ _ _ Hstep) as [? | Hpc]; [done|].
    split; [done|]. apply Hiff. by left.
  - assert (Hfree : mutexLocked s = false).
    { unfold step_completion in Hstep.
      destruct (inflight s !! slot); [|done]. by destruct (mutexLocked s). }
    split_and!; [done| | |].
    + intros Hpc. rewrite Hpc in Hmx. congruence.
    + intros Hpc. rewrite Hpc in Hmx. congruence.
    + by destruct (completion_keeps_cursor _ _ _ _ Hstep) as (_ & _ & ? & _).
Qed.

Lemma mutex_discipline_witness :
  run cfg2 (to_dispatch 1 ++ [tick 2] ++ to_dispatch 3 ++ [tick 4]) (init cfg2)
    = Some (state_after cfg2 (to_dispatch 1 ++ [tick 2] ++ to_dispatch 3 ++ [tick 4]))
  ∧ mutexLocked
      (state_after cfg2 (to_dispatch 1 ++ [tick 2] ++ to_dispatch 3 ++ [tick 4]))
    = false.
Proof.
  assert (H1 : run cfg2 (to_dispatch 1 ++ [tick 2] ++ to_dispatch 3 ++ [tick 4])
                 (init cfg2)
    = Some (state_after cfg2 (to_dispatch 1 ++ [tick 2] ++ to_dispatch 3 ++ [tick 4])))
    by (vm_compute; reflexivity).
  split; [exact H1|].
  assert (H2 : step cfg2 (Completion 0 (Ready 5%N))
      (state_after cfg2 (to_dispatch 1 ++ [tick 2] ++ to_dispatch 3 ++ [tick 4]))
    = Some (state_after cfg2
        (to_dispatch 1 ++ [tick 2] ++ to_dispatch 3 ++ [tick 4]
         ++ [Completion 0 (Ready 5%N)])))
    by (vm_compute; reflexivity).
  by destruct (mutex_discipline _ _ _ _ _ H1 H2) as (_ & Hfree & _).
Defined.

(** * Further properties *)

(** ** What the branches of the loop leave alone *)

Lemma deliver_frame cfg rr i s :
  emptyRequests (deliver cfg rr i s) = emptyRequests s
  ∧ completedRequestResults (deliver cfg rr i s) = completedRequestResults s
  ∧ callbackException (deliver cfg rr i s) = callbackException s
  ∧ mutexLocked (deliver cfg rr i s) = mutexLocked s
  ∧ capOpened (deliver cfg rr i s) = capOpened s
  ∧ nextFrameId (deliver cfg rr i s) = nextFrameId s
  ∧ inflight (deliver cfg rr i s) = inflight s
  ∧ submitted (deliver cfg rr i s) = submitted s.
Proof.
  unfold deliver.
  by destruct (isSameMode rr), (FLAGS_no_show cfg),
    (is_quit_key (key i)), (is_tab_key (key i)).
Qed.

Lemma deliver_pc cfg rr i s :
  (pc (deliver cfg rr i s) = LoopCond
   ∧ isUserSpecifiedMode (deliver cfg rr i s) = isUserSpecifiedMode s)
  ∨ (pc (deliver cfg rr i s) = Report
     ∧ isUserSpecifiedMode (deliver cfg rr i s) = isUserSpecifiedMode s
     ∧ FLAGS_no_show cfg = false ∧ is_quit_key (key i) = true)
  ∨ (pc (deliver cfg rr i s) = TabWait (isUserSpecifiedMode s)
     ∧ isUserSpecifiedMode (deliver cfg rr i s) = negb (isUserSpecifiedMode s)
     ∧ FLAGS_no_show cfg = false ∧ is_quit_key (key i) = false
     ∧ is_tab_key (key i) = true).
Proof.
  unfold deliver.
  destruct (isSameMode rr), (FLAGS_no_show cfg),
    (is_quit_key (key i)), (is_tab_key (key i)); simpl; auto 10.
Qed.

(** The four ways through lines 498-564. *)
Lemma start_new_cases cfg i s :
  (∃ o, start_new cfg i s = set_pc LoopCond (set_capOpened o s)
        ∧ (FLAGS_loop_input cfg = false → o = false))
  ∨ start_new cfg i s = set_pc (Exited (Failed ReadFailure)) s
  ∨ (emptyRequests s = [] ∧ start_new cfg i s = s)
  ∨ (∃ request rest, emptyRequests s = request :: rest
       ∧ ((busy request s = true
           ∧ start_new cfg i s
             = set_pc (Exited (Failed RequestBusy)) (set_emptyRequests rest s))
          ∨ (busy request s = false
             ∧ start_new cfg i s
               = set_pc LoopCond
                   (set_nextFrameId (S (nextFrameId s))
                      (set_submitted (submitted s ++ [readFrame i])
                         (set_inflight
                            (inflight s
                             ++ [{| cRequest := request; cFrameId := nextFrameId s;
                                    cFrameMode := isUserSpecifiedMode s;
                                    cFrame := readFrame i; cStartTime := now i |}])
                            (set_emptyRequests rest s))))))).
Proof.
  unfold start_new. destruct (negb (readOk i)).
  { destruct (Mat_empty (readFrame i)); [left | right; by left].
    eexists. split; [done|]. by intros ->. }
  destruct (emptyRequests s) as [|request rest] eqn:HE; [right; right; by left|].
  do 3 right. exists request, rest. split; [done|].
  change (busy request (set_emptyRequests rest s)) with (busy request s).
  destruct (busy request s); [left | right]; done.
Qed.

(** ** Sequence ids are used once *)

Lemma Fresh_init cfg : Fresh (init cfg).
Proof.
  split; simpl; try done.
  - constructor.
  - by intros c ?%elem_of_nil.
Qed.

Lemma Fresh_completion slot o s s' :
  Fresh s → step_completion slot o s = Some s' → Fresh s'.
Proof.
  intros [Hle Hnd Hin Hcomp Hloc] Hstep.
  unfold step_completion in Hstep.
  destruct (inflight s !! slot) as [c|] eqn:Hc; [|done].
  destruct (mutexLocked s); [done|]. simplify_eq.
  assert (Hcin : c ∈ inflight s) by (by eapply list_elem_of_lookup_2).
  assert (Hci : (cFrameId <$> inflight s) !! slot = Some (cFrameId c))
    by (by rewrite list_lookup_fmap, Hc).
  destruct (NoDup_delete_lookup _ _ _ Hnd Hci) as [Hnotin HndD].
  rewrite <- fmap_list_delete in Hnotin, HndD.
  destruct (Hin c Hcin) as [Hrange Hnone].
  assert (Hin' : ∀ c', c' ∈ delete slot (inflight s) →
            nextFrameIdToShow s ≤ cFrameId c' < nextFrameId s
            ∧ completedRequestResults s !! cFrameId c' = None).
  { intros c' Hc'. apply Hin. by eapply elem_of_list_delete. }
  assert (Hloc' : ∀ rr, pc s = Dispatch rr → output rr ≠ nullptr →
            completedRequestResults s !! nextFrameIdToShow s = None
            ∧ (nextFrameIdToShow s ∉ cFrameId <$> delete slot (inflight s))
            ∧ nextFrameIdToShow s < nextFrameId s).
  { intros rr Hpc Hout. destruct (Hloc rr Hpc Hout) as (? & Hn & ?).
    split_and!; [done| |done].
    intros Hd. apply Hn. rewrite fmap_list_delete in Hd.
    by eapply elem_of_list_delete. }
  destruct o as [buffer | e]; simpl.
  - set (v := {| frame := cFrame c; output := buffer; startTime := cStartTime c;
                 isSameMode := eqb (cFrameMode c) (isUserSpecifiedMode s) |}).
    assert (Hins : map_insert (cFrameId c) v (completedRequestResults s)
                   = <[cFrameId c := v]> (completedRequestResults s))
      by (unfold map_insert; by rewrite Hnone).
    rewrite Hins.
    destruct (eqb (isUserSpecifiedMode s) (cFrameMode c)); split; simpl; try done.
    all: try (intros c' Hc'; destruct (Hin' c' Hc') as [? ?]; split; [done|];
              rewrite lookup_insert_ne; [done|];
              intros Heq; apply Hnotin; rewrite Heq;
              apply list_elem_of_fmap; eauto).
    all: try (intros k r; destruct (decide (cFrameId c = k)) as [<-|Hne];
              [done | rewrite lookup_insert_ne by done; apply Hcomp]).
    all: intros rr Hpc Hout; destruct (Hloc' rr Hpc Hout) as (? & ? & ?);
         split_and!; [|done|done];
         rewrite lookup_insert_ne; [done|];
         intros Heq; destruct (Hloc rr Hpc Hout) as (_ & Hn & _);
         apply Hn; rewrite <- Heq; apply list_elem_of_fmap; eauto.
  - destruct (callbackException s); split; simpl; done.
Qed.

Lemma Fresh_control cfg i s s' :
  Fresh s → step_control cfg i s = Some s' → Fresh s'.
Proof.
  intros [Hle Hnd Hin Hcomp Hloc] Hstep.
  unfold step_control in Hstep.
  destruct (pc s) eqn:Hpc; simpl in Hstep.
  - simplify_eq. split; simpl; try done. by destruct (loop_cond cfg s).
  - destruct (callbackException s); simplify_eq; split; simpl; done.
  - destruct (mutexLocked s); simplify_eq. split; simpl; done.
  - unfold find_erase in Hstep.
    destruct (completedRequestResults s !! nextFrameIdToShow s) as [r|] eqn:Hr;
      injection Hstep as <-; split; simpl; try done.
    + intros c Hc. destruct (Hin c Hc) as [? Hn]. split; [done|].
      destruct (decide (nextFrameIdToShow s = cFrameId c)) as [->|Hne];
        [by rewrite lookup_delete_eq | by rewrite lookup_delete_ne].
    + intros k r' [_ ?]%lookup_delete_Some. by eapply Hcomp.
    + intros ? [= <-] _. split_and!.
      * by rewrite lookup_delete_eq.
      * intros (c & Hid & Hc)%list_elem_of_fmap.
        destruct (Hin c Hc) as [_ Hn]. rewrite <- Hid in Hn. congruence.
      * by destruct (Hcomp _ _ Hr).
    + by intros ? [= <-] Hnn.
  - destruct (negb (output requestResult =? nullptr)%N) eqn:Hout.
    { apply negb_true_iff, N.eqb_neq in Hout.
      destruct (Hloc _ eq_refl Hout) as (Hnone & Hnot & Hlt).
      simplify_eq.
      destruct (deliver_frame cfg requestResult i s)
        as (_ & HC & _ & _ & _ & HN & HI & _).
      pose proof (deliver_cursor cfg requestResult i s) as HS.
      split; rewrite ?HC, ?HN, ?HI, ?HS; try done.
      - intros c Hc. destruct (Hin c Hc) as [? ?]. split; [|done].
        assert (cFrameId c ≠ nextFrameIdToShow s); [|lia].
        intros Heq. apply Hnot. rewrite <- Heq. apply list_elem_of_fmap. eauto.
      - intros k r Hk. pose proof (Hcomp k r Hk).
        assert (k ≠ nextFrameIdToShow s) by congruence. lia.
      - intros rr Hpc'.
        destruct (deliver_pc cfg requestResult i s)
          as [[? _] | [[? _] | [? _]]]; congruence. }
    destruct (negb (bool_decide (emptyRequests s = [])) && capOpened s);
      [|simplify_eq; split; simpl; done].
    simplify_eq.
    destruct (start_new_cases cfg i s)
      as [(o & -> & _) | [-> | [[_ ->] | (q & rest & _ & [[_ ->] | [_ ->]])]]];
      try (split; simpl; done).
    { split; simpl; try done. rewrite Hpc. intros rr [= <-] Hnn.
      apply negb_false_iff, N.eqb_eq in Hout. done. }
    split; simpl; try done; try lia.
    + rewrite fmap_app. simpl. apply NoDup_app. split_and!; [done| |apply NoDup_singleton].
      intros k (c & -> & Hc)%list_elem_of_fmap Heq%list_elem_of_singleton.
      destruct (Hin c Hc) as [? _]. lia.
    + intros c [Hc | ->%list_elem_of_singleton]%elem_of_app.
      * destruct (Hin c Hc) as [? ?]. split; [lia | done].
      * simpl. split; [lia|].
        destruct (completedRequestResults s !! nextFrameId s) eqn:Hk; [|done].
        pose proof (Hcomp _ _ Hk). lia.
    + intros k r Hk. pose proof (Hcomp k r Hk). lia.
  - destruct (pool_idle cfg (isUserSpecifiedMode s) s); [|done].
    simplify_eq. unfold tab_rebuild. split; simpl; done.
  - destruct (mutexLocked s); simplify_eq. split; simpl; done.
  - simplify_eq. split; simpl; try done. by destruct (wait_cond s).
  - destruct (mutexLocked s); simplify_eq. split; simpl; done.
  - destruct (pool_idle cfg (isUserSpecifiedMode s) s); [|done].
    simplify_eq. split; simpl; done.
  - done.
Qed.

Lemma Fresh_step cfg e s s' : Fresh s → step cfg e s = Some s' → Fresh s'.
Proof. destruct e; simpl; eauto using Fresh_control, Fresh_completion. Qed.

Lemma Fresh_run cfg sched s :
  run cfg sched (init cfg) = Some s → Fresh s.
Proof.
  apply (run_preserves Fresh); [apply Fresh_step | apply Fresh_init].
Qed.

(** X1.  In every state of every run the sequence ids of the running
    closures are pairwise different and absent from the reorder buffer, and
    every id running or buffered lies between the cursor and [nextFrameId].
    So the insertion of line 546 always adds a new entry: the buffer grows
    by one and holds the callback's result under the closure's id. *)
Theorem sequence_ids_used_once cfg sched s :
  run cfg sched (init cfg) = Some s →
  NoDup (cFrameId <$> inflight s)
  ∧ (∀ c, c ∈ inflight s →
       nextFrameIdToShow s ≤ cFrameId c < nextFrameId s
       ∧ completedRequestResults s !! cFrameId c = None)
  ∧ (∀ k r, completedRequestResults s !! k = Some r →
       nextFrameIdToShow s ≤ k < nextFrameId s)
  ∧ (∀ slot c buffer s', inflight s !! slot = Some c →
       step_completion slot (Ready buffer) s = Some s' →
       completedRequestResults s'
       = <[cFrameId c := {| frame := cFrame c; output := buffer;
                            startTime := cStartTime c;
                            isSameMode := eqb (cFrameMode c) (isUserSpecifiedMode s) |}]>
           (completedRequestResults s)
       ∧ size (completedRequestResults s') = S (size (completedRequestResults s))).
Proof.
  intros Hrun. destruct (Fresh_run _ _ _ Hrun) as [Hle Hnd Hin Hcomp Hloc].
  split_and!; try done.
  intros slot c buffer s' Hc Hstep.
  assert (Hnone : completedRequestResults s !! cFrameId c = None).
  { apply Hin. by eapply list_elem_of_lookup_2. }
  unfold step_completion in Hstep. rewrite Hc in Hstep.
  destruct (mutexLocked s); [done|]. simplify_eq. simpl.
  unfold map_insert. rewrite Hnone.
  destruct (eqb (isUserSpecifiedMode s) (cFrameMode c)); simpl;
    (split; [done | by apply map_size_insert_None]).
Qed.

Lemma sequence_ids_used_once_witness :
  run cfg2 (to_dispatch 1 ++ [tick 2] ++ to_dispatch 3 ++ [tick 4]) (init cfg2)
    = Some (state_after cfg2 (to_dispatch 1 ++ [tick 2] ++ to_dispatch 3 ++ [tick 4]))
  ∧ cFrameId
      <$> inflight (state_after cfg2
                      (to_dispatch 1 ++ [tick 2] ++ to_dispatch 3 ++ [tick 4]))
    = [0; 1]
  ∧ NoDup (cFrameId
      <$> inflight (state_after cfg2
                      (to_dispatch 1 ++ [tick 2] ++ to_dispatch 3 ++ [tick 4]))).
Proof.
  assert (H1 : run cfg2 (to_dispatch 1 ++ [tick 2] ++ to_dispatch 3 ++ [tick 4])
                 (init cfg2)
    = Some (state_after cfg2 (to_dispatch 1 ++ [tick 2] ++ to_dispatch 3 ++ [tick 4])))
    by (vm_compute; reflexivity).
  split; [exact H1|]. split; [vm_compute; reflexivity|].
  by destruct (sequence_ids_used_once _ _ _ H1) as [Hnd _].
Defined.

(** ** No frame is lost *)

Lemma Counted_init cfg : Counted (init cfg).
Proof. split; simpl; [done|]. by rewrite map_size_empty. Qed.

Lemma pending_Dispatch rr :
  pending (Dispatch rr) = if N.eqb (output rr) nullptr then 0 else 1.
Proof. done. Qed.

Lemma Counted_completion slot o s s' :
  Fresh s → Counted s → sound (Completion slot o) = true →
  step_completion slot o s = Some s' → Counted s'.
Proof.
  intros [Hle Hnd Hin Hcomp Hloc] [Hnn Hsum] Hsound Hstep.
  unfold step_completion in Hstep.
  destruct (inflight s !! slot) as [c|] eqn:Hc; [|done].
  destruct (mutexLocked s); [done|]. simplify_eq.
  destruct o as [buffer | e]; [|done]. simpl in Hsound.
  apply negb_true_iff, N.eqb_neq in Hsound.
  assert (Hnone : completedRequestResults s !! cFrameId c = None).
  { apply Hin. by eapply list_elem_of_lookup_2. }
  assert (Hlen : length (delete slot (inflight s)) = length (inflight s) - 1)
    by (apply length_delete; eauto).
  assert (0 < length (inflight s)) by (by eapply Nat.le_lt_trans, lookup_lt_Some; [lia|]).
  simpl. unfold map_insert. rewrite Hnone.
  destruct (eqb (isUserSpecifiedMode s) (cFrameMode c)); split; simpl.
  all: try (intros k r; destruct (decide (cFrameId c = k)) as [<-|Hne];
            [rewrite lookup_insert_eq; by intros [= <-]
            | rewrite lookup_insert_ne by done; apply Hnn]).
  all: rewrite map_size_insert_None by done; lia.
Qed.

Lemma Counted_control cfg i s s' :
  Fresh s → Counted s → step_control cfg i s = Some s' → Counted s'.
Proof.
  intros [Hle Hnd Hin Hcomp Hloc] [Hnn Hsum] Hstep.
  unfold step_control in Hstep.
  destruct (pc s) eqn:Hpc; simpl in Hstep, Hsum.
  - simplify_eq. split; simpl; [done|]. destruct (loop_cond cfg s); simpl; lia.
  - destruct (callbackException s); simplify_eq; split; simpl; done || lia.
  - destruct (mutexLocked s); simplify_eq. split; simpl; done || lia.
  - unfold find_erase in Hstep.
    destruct (completedRequestResults s !! nextFrameIdToShow s) as [r|] eqn:Hr;
      injection Hstep as <-; split; simpl; try done.
    + intros k r' [_ ?]%lookup_delete_Some. by eapply Hnn.
    + pose proof (Hnn _ _ Hr) as Hout. apply N.eqb_neq in Hout. rewrite Hout.
      rewrite map_size_delete_Some by eauto.
      assert (size (completedRequestResults s) ≠ 0); [|lia].
      intros Hz%map_size_empty_iff. by rewrite Hz, lookup_empty in Hr.
  - destruct (negb (output requestResult =? nullptr)%N) eqn:Hout.
    { apply negb_true_iff in Hout. rewrite Hout in Hsum. simplify_eq.
      destruct (deliver_frame cfg requestResult i s)
        as (_ & HC & _ & _ & _ & HN & HI & _).
      pose proof (deliver_cursor cfg requestResult i s) as HS.
      split; rewrite ?HC, ?HN, ?HI, ?HS; [done|].
      destruct (deliver_pc cfg requestResult i s)
        as [[-> _] | [[-> _] | [-> _]]]; simpl; lia. }
    apply negb_false_iff in Hout. rewrite Hout in Hsum.
    destruct (negb (bool_decide (emptyRequests s = [])) && capOpened s);
      [|simplify_eq; split; simpl; done || lia].
    simplify_eq.
    destruct (start_new_cases cfg i s)
      as [(o & -> & _) | [-> | [[_ ->] | (q & rest & _ & [[_ ->] | [_ ->]])]]];
      split; simpl; try done; rewrite ?Hpc, ?pending_Dispatch, ?Hout,
        ?length_app; simpl; lia.
  - destruct (pool_idle cfg (isUserSpecifiedMode s) s); [|done].
    simplify_eq. unfold tab_rebuild. split; simpl; done || lia.
  - destruct (mutexLocked s); simplify_eq. split; simpl; done || lia.
  - simplify_eq. split; simpl; [done|]. destruct (wait_cond s); simpl; lia.
  - destruct (mutexLocked s); simplify_eq. split; simpl; done || lia.
  - destruct (pool_idle cfg (isUserSpecifiedMode s) s); [|done].
    simplify_eq. split; simpl; done || lia.
  - done.
Qed.

Lemma sound_run_invariants cfg sched :
  ∀ s s', Fresh s → Counted s → forallb sound sched = true →
    run cfg sched s = Some s' → Fresh s' ∧ Counted s'.
Proof.
  induction sched as [|e sched IH]; simpl; intros s s' HF HC Hq Hrun.
  - by simplify_eq.
  - apply andb_true_iff in Hq as [He Hq].
    destruct (step cfg e s) as [s1|] eqn:Hstep; [|done].
    apply (IH s1); try done.
    + by eapply Fresh_step.
    + destruct e; simpl in Hstep.
      * by eapply Counted_control.
      * by eapply Counted_completion.
Qed.

(** X2.  In a run in which no callback raises and no output buffer is null,
    whatever keys are pressed, every frame started is accounted for: the
    number of frames started is the number shown, plus the results in the
    reorder buffer, plus the requests running, plus the result held at line
    374 when there is one. *)
Theorem no_frame_is_lost cfg sched s :
  forallb sound sched = true →
  run cfg sched (init cfg) = Some s →
  nextFrameId s
  = length (shown s) + size (completedRequestResults s)
    + length (inflight s) + pending (pc s).
Proof.
  intros Hsound Hrun.
  destruct (sound_run_invariants cfg sched (init cfg) s) as [_ [_ Hsum]];
    [apply Fresh_init | apply Counted_init | done | done |].
  pose proof (ord_ids _ (Ordered_run _ _ _ Hrun)) as Hids.
  apply (f_equal length) in Hids. rewrite length_fmap, length_seq in Hids.
  lia.
Qed.

Lemma no_frame_is_lost_witness :
  forallb sound sched_after_switch = true
  ∧ run cfg2 sched_after_switch (init cfg2)
    = Some (state_after cfg2 sched_after_switch)
  ∧ nextFrameId (state_after cfg2 sched_after_switch)
    = length (shown (state_after cfg2 sched_after_switch))
      + size (completedRequestResults (state_after cfg2 sched_after_switch))
      + length (inflight (state_after cfg2 sched_after_switch))
      + pending (pc (state_after cfg2 sched_after_switch)).
Proof.
  assert (H1 : forallb sound sched_after_switch = true) by (vm_compute; reflexivity).
  assert (H2 : run cfg2 sched_after_switch (init cfg2)
               = Some (state_after cfg2 sched_after_switch))
    by (vm_compute; reflexivity).
  split; [exact H1|]. split; [exact H2|].
  exact (no_frame_is_lost _ _ _ H1 H2).
Defined.

(** ** How many requests run *)



(** ** The capture, once released *)

Lemma closed_capture_step cfg e s s' :
  FLAGS_loop_input cfg = false → capOpened s = false →
  step cfg e s = Some s' →
  capOpened s' = false ∧ nextFrameId s' = nextFrameId s
  ∧ submitted s' = submitted s.
Proof.
  intros Hloop Hcap. destruct e as [i | slot o]; simpl; intros Hstep.
  - unfold step_control in Hstep.
    destruct (pc s) eqn:Hpc; simpl in Hstep.
    + by simplify_eq.
    + destruct (callbackException s); by simplify_eq.
    + destruct (mutexLocked s); by simplify_eq.
    + destruct (find_erase _ _). by simplify_eq.
    + destruct (negb (output requestResult =? nullptr)%N).
      { simplify_eq.
        destruct (deliver_frame cfg requestResult i s)
          as (_ & _ & _ & _ & -> & -> & _ & ->). done. }
      rewrite Hcap, andb_false_r in Hstep. by simplify_eq.
    + destruct (pool_idle cfg (isUserSpecifiedMode s) s); by simplify_eq.
    + destruct (mutexLocked s); by simplify_eq.
    + by simplify_eq.
    + destruct (mutexLocked s); by simplify_eq.
    + destruct (pool_idle cfg (isUserSpecifiedMode s) s); by simplify_eq.
    + done.
  - unfold step_completion in Hstep.
    destruct (inflight s !! slot) as [c|]; [|done].
    destruct (mutexLocked s); [done|]. simplify_eq.
    destruct o as [b|x]; simpl.
    + by destruct (eqb (isUserSpecifiedMode s) (cFrameMode c)).
    + by destruct (callbackException s).
Qed.

(** X4.  Without [-loop_input], once the capture has been released it stays
    released, and no frame is started any more, whatever happens. *)
Theorem closed_capture_stays_closed cfg sched s s' :
  FLAGS_loop_input cfg = false → capOpened s = false →
  run cfg sched s = Some s' →
  capOpened s' = false ∧ nextFrameId s' = nextFrameId s
  ∧ submitted s' = submitted s.
Proof.
  intros Hloop Hcap Hrun.
  apply (run_preserves
           (λ t, capOpened t = false ∧ nextFrameId t = nextFrameId s
                 ∧ submitted t = submitted s) cfg) with (sched := sched) (s := s);
    [|done|done].
  intros e t t' (Hc & Hn & Ha) Hstep.
  destruct (closed_capture_step _ _ _ _ Hloop Hc Hstep) as (? & ? & ?).
  split_and!; congruence.
Qed.

Lemma closed_capture_stays_closed_witness :
  capOpened (state_after cfg2 sched_exhausted_one_running) = false
  ∧ run cfg2 ([Completion 0 (Ready 6%N)] ++ to_dispatch 7 ++ [tick 8])
      (state_after cfg2 sched_exhausted_one_running)
    = Some (state_after cfg2
              (sched_exhausted_one_running
               ++ [Completion 0 (Ready 6%N)] ++ to_dispatch 7 ++ [tick 8]))
  ∧ nextFrameId (state_after cfg2
              (sched_exhausted_one_running
               ++ [Completion 0 (Ready 6%N)] ++ to_dispatch 7 ++ [tick 8]))
    = nextFrameId (state_after cfg2 sched_exhausted_one_running).
Proof.
  assert (H1 : capOpened (state_after cfg2 sched_exhausted_one_running) = false)
    by (vm_compute; reflexivity).
  assert (H2 : run cfg2
      ([Completion 0 (Ready 6%N)] ++ to_dispatch 7 ++ [tick 8])
      (state_after cfg2 sched_exhausted_one_running)
    = Some (state_after cfg2
              (sched_exhausted_one_running
               ++ [Completion 0 (Ready 6%N)] ++ to_dispatch 7 ++ [tick 8]))) by (vm_compute; reflexivity).
  split; [exact H1|]. split; [exact H2|].
  by destruct (closed_capture_stays_closed cfg2 _ _ _ eq_refl H1 H2) as (_ & ? & _).
Defined.

(** ** A captured exception *)

Lemma captured_exception_step cfg ev s s' e :
  callbackException s = Some e → pc s ≠ Rethrow →
  (∀ x, pc s ≠ Exited (Failed (BackendFailure x))) →
  step cfg ev s = Some s' →
  callbackException s' = Some e ∧ pc s' ≠ Rethrow
  ∧ (∀ x, pc s' ≠ Exited (Failed (BackendFailure x)))
  ∧ nextFrameId s' ≤ S (nextFrameId s).
Proof.
  intros Hexn Hre Hex. destruct ev as [i | slot o]; simpl; intros Hstep.
  - unfold step_control in Hstep.
    destruct (pc s) eqn:Hpc; simpl in Hstep.
    + unfold loop_cond, no_exception in Hstep.
      rewrite Hexn, andb_false_r in Hstep. simplify_eq. simpl.
      split_and!; try done. lia.
    + done.
    + destruct (mutexLocked s); simplify_eq. simpl. split_and!; try done. lia.
    + destruct (find_erase _ _). simplify_eq. simpl. split_and!; try done. lia.
    + destruct (negb (output requestResult =? nullptr)%N).
      { simplify_eq.
        destruct (deliver_frame cfg requestResult i s)
          as (_ & _ & -> & _ & _ & -> & _ & _).
        split_and!; try done; [| |lia];
          destruct (deliver_pc cfg requestResult i s)
            as [[-> _] | [[-> _] | [-> _]]]; done. }
      destruct (negb (bool_decide (emptyRequests s = [])) && capOpened s);
        [|simplify_eq; simpl; split_and!; try done; lia].
      simplify_eq.
      destruct (start_new_cases cfg i s)
        as [(o & -> & _) | [-> | [[_ ->] | (q & rest & _ & [[_ ->] | [_ ->]])]]];
        simpl; rewrite ?Hpc; split_and!; try done; lia.
    + destruct (pool_idle cfg (isUserSpecifiedMode s) s); simplify_eq.
      unfold tab_rebuild. simpl. split_and!; try done. lia.
    + destruct (mutexLocked s); simplify_eq. simpl. split_and!; try done. lia.
    + simplify_eq. simpl. split_and!; try done; [by destruct (wait_cond s)..|lia].
    + destruct (mutexLocked s); simplify_eq. simpl. split_and!; try done. lia.
    + destruct (pool_idle cfg (isUserSpecifiedMode s) s); simplify_eq.
      simpl. split_and!; try done. lia.
    + done.
  - unfold step_completion in Hstep.
    destruct (inflight s !! slot) as [c|]; [|done].
    destruct (mutexLocked s); [done|]. simplify_eq.
    destruct o as [b|x]; simpl.
    + destruct (eqb (isUserSpecifiedMode s) (cFrameMode c)); simpl;
        split_and!; try done; lia.
    + rewrite Hexn. simpl. split_and!; try done. lia.
Qed.

(** X5.  Once a callback exception is captured, and unless the control
    thread stands at line 360 at that moment, the exception is kept for the
    rest of the run (a later one does not replace it), line 360 is never
    reached again and [main] never exits by rethrowing it. *)
Theorem captured_exception_is_kept cfg sched s s' e :
  callbackException s = Some e → pc s ≠ Rethrow →
  (∀ x, pc s ≠ Exited (Failed (BackendFailure x))) →
  run cfg sched s = Some s' →
  callbackException s' = Some e ∧ pc s' ≠ Rethrow
  ∧ (∀ x, pc s' ≠ Exited (Failed (BackendFailure x))).
Proof.
  intros Hexn Hre Hex Hrun.
  apply (run_preserves
           (λ t, callbackException t = Some e ∧ pc t ≠ Rethrow
                 ∧ ∀ x, pc t ≠ Exited (Failed (BackendFailure x))) cfg)
    with (sched := sched) (s := s); [|done|done].
  intros ev t t' (H1 & H2 & H3) Hstep.
  by destruct (captured_exception_step _ _ _ _ _ H1 H2 H3 Hstep) as (? & ? & ? & _).
Qed.

Lemma captured_exception_is_kept_witness :
  callbackException
    (state_after cfg1 (to_dispatch 1 ++ [tick 2] ++ to_dispatch 3
                       ++ [tick 4; tick 4; tick 4] ++ [Completion 0 (Throws 7)]))
  = Some 7
  ∧ callbackException (state_after cfg1 sched_callback_throws) = Some 7.
Proof.
  assert (H1 : callbackException
    (state_after cfg1 (to_dispatch 1 ++ [tick 2] ++ to_dispatch 3
                       ++ [tick 4; tick 4; tick 4] ++ [Completion 0 (Throws 7)]))
    = Some 7) by (vm_compute; reflexivity).
  split; [exact H1|].
  eapply (captured_exception_is_kept cfg1 [tick 5; tick 5; tick 5; tick 5]);
    [exact H1 | vm_compute; discriminate | intros x; vm_compute; discriminate
    | vm_compute; reflexivity].
Defined.

(** ** After the loop *)




(** ** The metrics at a mode switch *)

Lemma deliver_lastEndTime cfg rr i s m :
  lastEndTime (modeInfo_at m (modeInfo (deliver cfg rr i s)))
  = lastEndTime (modeInfo_at m (modeInfo s)).
Proof.
  unfold deliver.
  by destruct (isSameMode rr), m, (isUserSpecifiedMode s), (FLAGS_no_show cfg),
    (is_quit_key (key i)), (is_tab_key (key i)).
Qed.

Lemma window_open_init cfg : window_open (init cfg).
Proof. by intros _. Qed.

Lemma window_open_step cfg e s s' :
  window_open s → step cfg e s = Some s' → window_open s'.
Proof.
  unfold window_open. intros Hw. destruct e as [i | slot o]; simpl; intros Hstep.
  - unfold step_control in Hstep.
    destruct (pc s) eqn:Hpc; simpl in Hstep.
    + simplify_eq. simpl. intros _. apply Hw. congruence.
    + destruct (callbackException s); simplify_eq; simpl; intros _; apply Hw;
        congruence.
    + destruct (mutexLocked s); simplify_eq. simpl. intros _. apply Hw. congruence.
    + destruct (find_erase _ _). simplify_eq. simpl. intros _. apply Hw. congruence.
    + destruct (negb (output requestResult =? nullptr)%N).
      { simplify_eq. intros Hno. rewrite deliver_lastEndTime.
        destruct (deliver_pc cfg requestResult i s)
          as [[_ ->] | [(_ & -> & _) | [Htab _]]].
        - apply Hw. congruence.
        - apply Hw. congruence.
        - by destruct (Hno _ Htab). }
      destruct (negb (bool_decide (emptyRequests s = [])) && capOpened s);
        [|simplify_eq; simpl; intros _; apply Hw; congruence].
      simplify_eq.
      destruct (start_new_cases cfg i s)
        as [(o & -> & _) | [-> | [[_ ->] | (q & rest & _ & [[_ ->] | [_ ->]])]]];
        simpl; intros _; apply Hw; congruence.
    + destruct (pool_idle cfg (isUserSpecifiedMode s) s); simplify_eq.
      unfold tab_rebuild. simpl. intros _.
      by destruct (isUserSpecifiedMode s), prevMode.
    + destruct (mutexLocked s); simplify_eq. simpl. intros _. apply Hw. congruence.
    + simplify_eq. simpl. intros _. apply Hw. congruence.
    + destruct (mutexLocked s); simplify_eq. simpl. intros _. apply Hw. congruence.
    + destruct (pool_idle cfg (isUserSpecifiedMode s) s); simplify_eq.
      simpl. intros _. apply Hw. congruence.
    + done.
  - destruct (completion_keeps_cursor _ _ _ _ Hstep) as (_ & _ & -> & ->).
    unfold step_completion in Hstep.
    destruct (inflight s !! slot) as [c|]; [|done].
    destruct (mutexLocked s); [done|]. simplify_eq.
    destruct o as [b|x]; simpl.
    + by destruct (eqb (isUserSpecifiedMode s) (cFrameMode c)).
    + by destruct (callbackException s).
Qed.

(** X7.  When the TAB handler finishes, the metrics of the mode it switched
    to are those of a fresh [ModeInfo]: no frame, no latency, a window that
    starts now.  The mode it switched from keeps its frame count, latency
    sum and window start, and its window end is stamped with the clock. *)
Theorem switch_resets_metrics cfg sched s prev i s' :
  run cfg sched (init cfg) = Some s →
  pc s = TabWait prev →
  step_control cfg i s = Some s' →
  modeInfo_at (negb prev) (modeInfo s') = ModeInfo_new (now i)
  ∧ modeInfo_at prev (modeInfo s')
    = {| framesCount := framesCount (modeInfo_at prev (modeInfo s));
         latencySum := latencySum (modeInfo_at prev (modeInfo s));
         lastStartTime := lastStartTime (modeInfo_at prev (modeInfo s));
         lastEndTime := now i |}.
Proof.
  intros Hrun Hpc Hstep.
  pose proof (inv_tab _ _ (Inv_run _ _ _ Hrun) _ Hpc) as Hmode.
  unfold step_control in Hstep. rewrite Hpc in Hstep.
  destruct (pool_idle cfg (isUserSpecifiedMode s) s); [|done].
  simplify_eq. unfold tab_rebuild. simpl. rewrite Hmode.
  by destruct prev.
Qed.

Lemma switch_resets_metrics_witness :
  run cfg2 sched_tab_pressed (init cfg2)
    = Some (state_after cfg2 sched_tab_pressed)
  ∧ framesCount (ofUserSpecified (modeInfo (state_after cfg2 sched_tab_pressed))) = 1
  ∧ modeInfo_at (negb true)
      (modeInfo (state_after cfg2 (sched_tab_pressed ++ [tick 7])))
    = ModeInfo_new 7%Z.
Proof.
  assert (H1 : run cfg2 sched_tab_pressed (init cfg2)
               = Some (state_after cfg2 sched_tab_pressed))
    by (vm_compute; reflexivity).
  split; [exact H1|]. split; [vm_compute; reflexivity|].
  eapply (switch_resets_metrics cfg2 sched_tab_pressed _ true
            {| now := 7%Z; key := (-1)%Z; readOk := true; readFrame := Image 7;
               reopenOk := false |});
    [exact H1 | vm_compute; reflexivity | vm_compute; reflexivity].
Defined.

(** X8.  In every state of every run, outside the TAB handler, the window
    of the active mode has no end stamped, so that the report of lines
    601-625 ends the active mode's window at the time of the report. *)
Theorem active_window_is_open cfg sched s t :
  run cfg sched (init cfg) = Some s →
  (∀ p, pc s ≠ TabWait p) →
  lastEndTime (modeInfo_at (isUserSpecifiedMode s) (modeInfo s)) = 0%Z
  ∧ report_endTime (modeInfo_at (isUserSpecifiedMode s) (modeInfo s)) t = t.
Proof.
  intros Hrun Hpc.
  assert (Hw : window_open s).
  { revert Hrun. apply (run_preserves window_open);
      [apply window_open_step | apply window_open_init]. }
  unfold report_endTime. by rewrite (Hw Hpc).
Qed.

Lemma active_window_is_open_witness :
  run cfg2 sched_second_shown (init cfg2)
    = Some (state_after cfg2 sched_second_shown)
  ∧ isUserSpecifiedMode (state_after cfg2 sched_second_shown) = false
  ∧ lastEndTime (ofUserSpecified (modeInfo (state_after cfg2 sched_second_shown)))
    = 7%Z
  ∧ report_endTime
      (modeInfo_at (isUserSpecifiedMode (state_after cfg2 sched_second_shown))
         (modeInfo (state_after cfg2 sched_second_shown))) 20%Z
    = 20%Z.
Proof.
  assert (H1 : run cfg2 sched_second_shown (init cfg2)
               = Some (state_after cfg2 sched_second_shown))
    by (vm_compute; reflexivity).
  split; [exact H1|]. split; [vm_compute; reflexivity|].
  split; [vm_compute; reflexivity|].
  apply (active_window_is_open _ _ _ 20%Z H1).
  intros p. vm_compute. discriminate.
Defined.

(** ** No request at all *)

Lemma Starved_init cfg : FLAGS_nireq cfg = 0 → Starved (init cfg).
Proof.
  intros Hn. split; simpl; try done.
  unfold userSpecifiedInferRequests. by rewrite Hn.
Qed.

Lemma Starved_step cfg e s s' :
  Starved s → step cfg e s = Some s' → Starved s'.
Proof.
  intros [Hmode Hcap Hfree Hbuf Hexn Hinf Hnext Hshown Hpc].
  destruct e as [i | slot o]; simpl; intros Hstep.
  - unfold step_control in Hstep.
    destruct (pc s) eqn:Hp; simpl in Hstep; try done.
    + unfold loop_cond, no_exception in Hstep. rewrite Hcap, Hexn in Hstep.
      simpl in Hstep. simplify_eq. split; simpl; done.
    + rewrite Hexn in Hstep. simplify_eq. split; simpl; done.
    + destruct (mutexLocked s); simplify_eq. split; simpl; done.
    + unfold find_erase in Hstep. rewrite Hbuf, lookup_empty in Hstep.
      simplify_eq. split; simpl; done.
    + apply N.eqb_eq in Hpc. rewrite Hpc, Hfree in Hstep. simpl in Hstep.
      simplify_eq. split; simpl; done.
    + destruct (mutexLocked s); simplify_eq. split; simpl; done.
    + simplify_eq. split; simpl; try done. by destruct (wait_cond s).
    + destruct (mutexLocked s); simplify_eq. split; simpl; done.
  - unfold step_completion in Hstep. by rewrite Hinf in Hstep.
Qed.

(** X9.  With [FLAGS_nireq = 0] there is no user-specified request: no
    frame is ever started or shown, and [main] never leaves the loop; the
    control thread ends up waiting on the condition variable with nothing
    running that could wake it. *)
Theorem no_request_no_end cfg sched s :
  FLAGS_nireq cfg = 0 →
  run cfg sched (init cfg) = Some s →
  nextFrameId s = 0 ∧ shown s = [] ∧ inflight s = []
  ∧ pc s ≠ Report ∧ (∀ r, pc s ≠ Exited r).
Proof.
  intros Hn Hrun.
  assert (HS : Starved s).
  { revert Hrun. apply (run_preserves Starved);
      [apply Starved_step | by apply Starved_init]. }
  destruct HS as [_ _ _ _ _ Hinf Hnext Hshown Hpc].
  split_and!; try done.
  - intros Hr. by rewrite Hr in Hpc.
  - intros r Hr. by rewrite Hr in Hpc.
Qed.

Lemma no_request_no_end_witness :
  run cfg0 (to_dispatch 1 ++ [tick 2; tick 2; tick 2; tick 2; tick 2]) (init cfg0)
    = Some (state_after cfg0
              (to_dispatch 1 ++ [tick 2; tick 2; tick 2; tick 2; tick 2]))
  ∧ pc (state_after cfg0
          (to_dispatch 1 ++ [tick 2; tick 2; tick 2; tick 2; tick 2])) = Waiting
  ∧ inflight (state_after cfg0
          (to_dispatch 1 ++ [tick 2; tick 2; tick 2; tick 2; tick 2])) = [].
Proof.
  assert (H1 : run cfg0 (to_dispatch 1 ++ [tick 2; tick 2; tick 2; tick 2; tick 2])
                 (init cfg0)
    = Some (state_after cfg0
              (to_dispatch 1 ++ [tick 2; tick 2; tick 2; tick 2; tick 2])))
    by (vm_compute; reflexivity).
  split; [exact H1|]. split; [vm_compute; reflexivity|].
  by destruct (no_request_no_end cfg0 _ _ eq_refl H1) as (_ & _ & ? & _).
Defined.

(** ** What the control thread waits for *)





(** ** No request of the active pool is lost *)

Lemma Slots_init cfg : Slots cfg (init cfg).
Proof. intros _ _ r Hr. by left. Qed.

Lemma Slots_completion cfg slot o s s' :
  Inv cfg s → Slots cfg s → step_completion slot o s = Some s' → Slots cfg s'.
Proof.
  intros HInv Hs Hstep.
  destruct (completion_keeps_cursor _ _ _ _ Hstep) as (_ & _ & _ & Hpc).
  unfold step_completion in Hstep.
  destruct (inflight s !! slot) as [c|] eqn:Hc; [|done].
  destruct (mutexLocked s); [done|]. simplify_eq.
  assert (Hcin : c ∈ inflight s) by (by eapply list_elem_of_lookup_2).
  assert (Hci : (cRequest <$> inflight s) !! slot = Some (cRequest c))
    by (by rewrite list_lookup_fmap, Hc).
  unfold Slots. rewrite Hpc. destruct o as [buffer | x]; simpl.
  - destruct (eqb (isUserSpecifiedMode s) (cFrameMode c)) eqn:Hmode; simpl;
      intros Hexn Hno r Hr; destruct (Hs Hexn Hno r Hr) as [HE | HI].
    + left. apply elem_of_app. by left.
    + destruct (decide (r = cRequest c)) as [->|Hne].
      * left. apply elem_of_app. right. by left.
      * right. rewrite fmap_list_delete. by eapply elem_of_list_delete_ne.
    + by left.
    + right. rewrite fmap_list_delete. eapply elem_of_list_delete_ne; [done|done|].
      intros ->. apply eqb_false_iff in Hmode.
      pose proof (inv_pool _ _ HInv c Hcin) as Hp.
      destruct (isUserSpecifiedMode s), (cFrameMode c); try done;
        by eapply (pool_disjoint cfg _ _ Hp).
  - destruct (callbackException s) eqn:Hx; simpl; intros Hexn; [|done].
    by rewrite Hx in Hexn.
Qed.

Lemma Slots_control cfg i s s' :
  Slots cfg s → step_control cfg i s = Some s' → Slots cfg s'.
Proof.
  intros Hs Hstep. unfold step_control in Hstep.
  destruct (pc s) eqn:Hpc; simpl in Hstep.
  - simplify_eq. intros Hexn _. apply Hs; [done | congruence].
  - destruct (callbackException s) eqn:Hx; simplify_eq; intros Hexn _;
      [by simpl in Hexn; rewrite Hx in Hexn | apply Hs; [done | congruence]].
  - destruct (mutexLocked s); simplify_eq. intros Hexn _. apply Hs; [done|congruence].
  - destruct (find_erase _ _). simplify_eq. intros Hexn _.
    apply Hs; [done | congruence].
  - assert (Hs' : callbackException s = None →
        ∀ r, r ∈ pool cfg (isUserSpecifiedMode s) →
             r ∈ emptyRequests s ∨ r ∈ cRequest <$> inflight s).
    { intros Hexn. apply Hs; [done | congruence]. }
    destruct (negb (output requestResult =? nullptr)%N).
    { simplify_eq. unfold Slots.
      destruct (deliver_frame cfg requestResult i s)
        as (-> & _ & -> & _ & _ & _ & -> & _).
      intros Hexn Hno.
      destruct (deliver_pc cfg requestResult i s)
        as [[_ ->] | [(_ & -> & _) | [Htab _]]]; [by apply Hs'..|].
      by destruct (Hno _ Htab). }
    destruct (negb (bool_decide (emptyRequests s = [])) && capOpened s);
      [|simplify_eq; intros Hexn _; by apply Hs'].
    simplify_eq.
    destruct (start_new_cases cfg i s)
      as [(o & -> & _) | [-> | [[_ ->] | (q & rest & HE & [[Hb ->] | [_ ->]])]]];
      unfold Slots; simpl; intros Hexn _ r Hr; try (by apply Hs').
    + destruct (Hs' Hexn r Hr) as [Hin | Hin]; [|by right].
      rewrite HE in Hin. apply elem_of_cons in Hin as [-> | Hin]; [|by left].
      right. by apply busy_spec.
    + destruct (Hs' Hexn r Hr) as [Hin | Hin].
      * rewrite HE in Hin. apply elem_of_cons in Hin as [-> | Hin]; [|by left].
        right. rewrite fmap_app. apply elem_of_app. right. by left.
      * right. rewrite fmap_app. apply elem_of_app. by left.
  - destruct (pool_idle cfg (isUserSpecifiedMode s) s); [|done].
    simplify_eq. unfold tab_rebuild. intros _ _ r Hr. by left.
  - destruct (mutexLocked s); simplify_eq. intros Hexn _. apply Hs; [done|congruence].
  - simplify_eq. intros Hexn _. apply Hs; [done | congruence].
  - destruct (mutexLocked s); simplify_eq. intros Hexn _. apply Hs; [done|congruence].
  - destruct (pool_idle cfg (isUserSpecifiedMode s) s); [|done].
    simplify_eq. intros Hexn _. apply Hs; [done | congruence].
  - done.
Qed.

Lemma Slots_run cfg sched s :
  run cfg sched (init cfg) = Some s → Slots cfg s.
Proof.
  intros Hrun.
  assert (H : Inv cfg s ∧ Slots cfg s); [|by destruct H].
  revert Hrun. apply (run_preserves (λ t, Inv cfg t ∧ Slots cfg t)).
  - intros e t t' [HI HS] Hstep. split; [by eapply Inv_step|].
    destruct e; simpl in Hstep;
      eauto using Slots_control, Slots_completion.
  - split; [apply Inv_init | apply Slots_init].
Qed.

(** X11.  While no callback exception has been captured, outside the TAB
    handler, every request of the active pool is free or running: none is
    lost.  So when the control thread finds the condition of line 569 true
    and goes to sleep, and the active pool is not empty, a request of the
    active pool is running, whose callback will notify it. *)
Theorem sleeps_only_while_a_request_runs cfg sched s :
  run cfg sched (init cfg) = Some s →
  callbackException s = None →
  (∀ p, pc s ≠ TabWait p) →
  (∀ r, r ∈ pool cfg (isUserSpecifiedMode s) →
        r ∈ emptyRequests s ∨ r ∈ cRequest <$> inflight s)
  ∧ (pc s = WaitCheck → wait_cond s = true →
     pool cfg (isUserSpecifiedMode s) ≠ [] →
     ∃ c, c ∈ inflight s ∧ cRequest c ∈ pool cfg (isUserSpecifiedMode s)).
Proof.
  intros Hrun Hexn Hpc. pose proof (Slots_run _ _ _ Hrun Hexn Hpc) as Hs.
  split; [done|]. intros _ Hw Hne.
  unfold wait_cond in Hw. apply andb_true_iff in Hw as [Hw _].
  apply andb_true_iff in Hw as [_ HE]. apply bool_decide_eq_true in HE.
  destruct (pool cfg (isUserSpecifiedMode s)) as [|r rest] eqn:Hp; [done|].
  destruct (Hs r) as [Hin | Hin];
    [by left | rewrite HE in Hin; by apply elem_of_nil in Hin |].
  apply list_elem_of_fmap in Hin as (c & -> & Hc). exists c. split; [done|by left].
Qed.

Lemma sleeps_only_while_a_request_runs_witness :
  run cfg1 (to_dispatch 1 ++ [tick 2] ++ to_dispatch 3 ++ [tick 4; tick 4]) (init cfg1)
    = Some (state_after cfg1
              (to_dispatch 1 ++ [tick 2] ++ to_dispatch 3 ++ [tick 4; tick 4]))
  ∧ pc (state_after cfg1
          (to_dispatch 1 ++ [tick 2] ++ to_dispatch 3 ++ [tick 4; tick 4]))
    = WaitCheck
  ∧ ∃ c, c ∈ inflight (state_after cfg1
               (to_dispatch 1 ++ [tick 2] ++ to_dispatch 3 ++ [tick 4; tick 4]))
       ∧ cRequest c
         ∈ pool cfg1 (isUserSpecifiedMode (state_after cfg1
               (to_dispatch 1 ++ [tick 2] ++ to_dispatch 3 ++ [tick 4; tick 4]))).
Proof.
  assert (H1 : run cfg1 (to_dispatch 1 ++ [tick 2] ++ to_dispatch 3 ++ [tick 4; tick 4])
                 (init cfg1)
    = Some (state_after cfg1
              (to_dispatch 1 ++ [tick 2] ++ to_dispatch 3 ++ [tick 4; tick 4])))
    by (vm_compute; reflexivity).
  assert (H2 : pc (state_after cfg1
          (to_dispatch 1 ++ [tick 2] ++ to_dispatch 3 ++ [tick 4; tick 4]))
    = WaitCheck) by (vm_compute; reflexivity).
  split; [exact H1|]. split; [exact H2|].
  destruct (sleeps_only_while_a_request_runs _ _ _ H1) as [_ Hsleep].
  - vm_compute; reflexivity.
  - intros p. rewrite H2. discriminate.
  - apply Hsleep; [exact H2 | vm_compute; reflexivity | vm_compute; discriminate].
Defined.

(** ** The reorder buffer *)

(** X12.  A result inserted under an id that the reorder buffer does not
    hold is what the lookup of that id yields next, and the lookup leaves
    the buffer as it was before the insertion; the entries under other ids
    are not touched by either. *)
Theorem buffer_insert_then_lookup k v (m : gmap nat RequestResult) :
  m !! k = None →
  find_erase k (map_insert k v m) = (v, m)
  ∧ (∀ j, j ≠ k → map_insert k v m !! j = m !! j)
  ∧ (∀ j, j ≠ k → (find_erase k (map_insert k v m)).2 !! j = m !! j).
Proof.
  intros Hk. unfold map_insert. rewrite Hk.
  assert (Hfe : find_erase k (<[k:=v]> m) = (v, m)).
  { unfold find_erase. rewrite lookup_insert_eq. f_equal.
    rewrite delete_insert_eq. by apply delete_id. }
  split_and!; [done| |].
  - intros j Hj. by rewrite lookup_insert_ne.
  - intros j Hj. by rewrite Hfe.
Qed.

Lemma buffer_insert_then_lookup_witness :
  ({[ 1 := dup_result ]} : gmap nat RequestResult) !! 0 = None
  ∧ find_erase 0 (map_insert 0 late_result {[ 1 := dup_result ]})
    = (late_result, {[ 1 := dup_result ]}).
Proof.
  assert (H0 : ({[ 1 := dup_result ]} : gmap nat RequestResult) !! 0 = None)
    by (vm_compute; reflexivity).
  split; [exact H0|].
  by destruct (buffer_insert_then_lookup 0 late_result {[ 1 := dup_result ]} H0)
    as [? _].
Defined.

(** ** Runs without a mode switch *)

Lemma Steady_init cfg : Steady (init cfg).
Proof.
  split; simpl; try done.
  - by intros c ?%elem_of_nil.
  - by intros d ?%elem_of_nil.
Qed.

Lemma Steady_completion slot o s s' :
  Steady s → step_completion slot o s = Some s' → Steady s'.
Proof.
  intros [Hmode Hnotab Hinf Hcomp Hloc Hcount Hshown] Hstep.
  unfold step_completion in Hstep.
  destruct (inflight s !! slot) as [c|] eqn:Hc; [|done].
  destruct (mutexLocked s); [done|]. simplify_eq.
  assert (Hcin : c ∈ inflight s) by (by eapply list_elem_of_lookup_2).
  assert (Hinf' : ∀ c', c' ∈ delete slot (inflight s) → cFrameMode c' = true).
  { intros c' Hc'. apply Hinf. by eapply elem_of_list_delete. }
  destruct o as [buffer | x]; simpl.
  - assert (Hcomp' : ∀ k r,
      map_insert (cFrameId c)
        {| frame := cFrame c; output := buffer; startTime := cStartTime c;
           isSameMode := eqb (cFrameMode c) (isUserSpecifiedMode s) |}
        (completedRequestResults s) !! k = Some r → isSameMode r = true).
    { intros k r [Hk | [-> ->]]%map_insert_lookup; [by eapply Hcomp|].
      simpl. by rewrite Hmode, (Hinf c Hcin). }
    destruct (eqb (isUserSpecifiedMode s) (cFrameMode c)); split; simpl; done.
  - destruct (callbackException s); split; simpl; done.
Qed.

Lemma Steady_control cfg i s s' :
  Steady s → no_tab (Control i) = true →
  step_control cfg i s = Some s' → Steady s'.
Proof.
  intros [Hmode Hnotab Hinf Hcomp Hloc Hcount Hshown] Hkey Hstep.
  simpl in Hkey. apply negb_true_iff in Hkey.
  unfold step_control in Hstep.
  destruct (pc s) eqn:Hpc; simpl in Hstep.
  - simplify_eq. destruct (loop_cond cfg s); split; simpl; done.
  - destruct (callbackException s); simplify_eq; split; simpl; done.
  - destruct (mutexLocked s); simplify_eq. split; simpl; done.
  - unfold find_erase in Hstep.
    destruct (completedRequestResults s !! nextFrameIdToShow s) as [r|] eqn:Hr;
      injection Hstep as <-; split; simpl; try done.
    + intros k r' [_ ?]%lookup_delete_Some. by eapply Hcomp.
    + intros ? [= <-] _. by eapply Hcomp.
    + by intros ? [= <-] Hnn.
  - destruct (negb (output requestResult =? nullptr)%N) eqn:Hout.
    { apply negb_true_iff, N.eqb_neq in Hout.
      pose proof (Hloc _ eq_refl Hout) as Hsame. simplify_eq.
      destruct (deliver_frame cfg requestResult i s)
        as (_ & HC & _ & _ & _ & _ & HI & _).
      pose proof (deliver_cursor cfg requestResult i s) as HS.
      pose proof (deliver_shown cfg requestResult i s) as Hsh.
      pose proof (deliver_framesCount cfg requestResult i s true) as Hfc.
      rewrite Hsame, Hmode in Hfc. simpl in Hfc.
      rewrite Hsame, Hmode in Hsh. simpl in Hsh.
      assert (Hpc' : isUserSpecifiedMode (deliver cfg requestResult i s) = true
                     ∧ ∀ p, pc (deliver cfg requestResult i s) ≠ TabWait p
                     ∧ ∀ rr, pc (deliver cfg requestResult i s) ≠ Dispatch rr).
      { destruct (deliver_pc cfg requestResult i s)
          as [[-> ->] | [(-> & -> & _) | (_ & _ & _ & _ & ?)]];
          [done | done | congruence]. }
      destruct Hpc' as [Hm' Hp'].
      split; rewrite ?HC, ?HI, ?HS, ?Hsh; try done.
      - intros p. apply Hp'.
      - intros rr Hrr. by destruct (Hp' true) as [_ Hd]; destruct (Hd rr).
      - rewrite Hfc. lia.
      - intros d [Hd | ->%list_elem_of_singleton]%elem_of_app; [by apply Hshown|].
        simpl. split; [lia | done]. }
    destruct (negb (bool_decide (emptyRequests s = [])) && capOpened s);
      [|simplify_eq; split; simpl; done].
    simplify_eq.
    destruct (start_new_cases cfg i s)
      as [(o & -> & _) | [-> | [[_ ->] | (q & rest & _ & [[_ ->] | [_ ->]])]]];
      try (split; simpl; done).
    { split; simpl; try done. rewrite Hpc. intros rr [= <-] Hnn.
      apply negb_false_iff, N.eqb_eq in Hout. congruence. }
    split; simpl; try done.
    intros c [Hc | ->%list_elem_of_singleton]%elem_of_app; [by apply Hinf | done].
  - by destruct (Hnotab prevMode).
  - destruct (mutexLocked s); simplify_eq. split; simpl; done.
  - simplify_eq. destruct (wait_cond s); split; simpl; done.
  - destruct (mutexLocked s); simplify_eq. split; simpl; done.
  - destruct (pool_idle cfg (isUserSpecifiedMode s) s); [|done].
    simplify_eq. split; simpl; done.
  - done.
Qed.

Lemma steady_run cfg sched :
  ∀ s s', Steady s → forallb no_tab sched = true →
    run cfg sched s = Some s' → Steady s'.
Proof.
  induction sched as [|e sched IH]; simpl; intros s s' HS Hq Hrun.
  - by simplify_eq.
  - apply andb_true_iff in Hq as [He Hq].
    destruct (step cfg e s) as [s1|] eqn:Hstep; [|done].
    apply (IH s1); try done.
    destruct e; simpl in Hstep.
    + by eapply Steady_control.
    + by eapply Steady_completion.
Qed.

(** X13.  In a run in which TAB is never pressed the mode stays the
    user-specified one and every frame shown is counted: [framesCount] of
    that mode is the number of frames shown, and the division of lines
    449-450 is shown with the divisor [id + 1] for the frame of sequence id
    [id], never 0. *)
Theorem without_switch_every_frame_counts cfg sched s :
  forallb no_tab sched = true →
  run cfg sched (init cfg) = Some s →
  isUserSpecifiedMode s = true
  ∧ framesCount (ofUserSpecified (modeInfo s)) = length (shown s)
  ∧ ∀ d, d ∈ shown s →
      latencyDivisor d = S (shownId d) ∧ isSameMode (shownResult d) = true.
Proof.
  intros Hq Hrun.
  destruct (steady_run cfg sched (init cfg) s (Steady_init cfg) Hq Hrun)
    as [Hmode _ _ _ _ Hcount Hshown].
  pose proof (ord_ids _ (Ordered_run _ _ _ Hrun)) as Hids.
  apply (f_equal length) in Hids. rewrite length_fmap, length_seq in Hids.
  split_and!; [done | lia | done].
Qed.

Lemma without_switch_every_frame_counts_witness :
  forallb no_tab sched_one_frame = true
  ∧ run cfg1 sched_one_frame (init cfg1) = Some (state_after cfg1 sched_one_frame)
  ∧ length (shown (state_after cfg1 sched_one_frame)) = 1
  ∧ framesCount (ofUserSpecified (modeInfo (state_after cfg1 sched_one_frame)))
    = length (shown (state_after cfg1 sched_one_frame)).
Proof.
  assert (H1 : forallb no_tab sched_one_frame = true) by (vm_compute; reflexivity).
  assert (H2 : run cfg1 sched_one_frame (init cfg1)
               = Some (state_after cfg1 sched_one_frame))
    by (vm_compute; reflexivity).
  split; [exact H1|]. split; [exact H2|]. split; [vm_compute; reflexivity|].
  by destruct (without_switch_every_frame_counts _ _ _ H1 H2) as (_ & ? & _).
Defined.

(** * Setting up, and drawing the detections: proofs *)

(** ** The command line *)

(** X14.  With [-h] the demo shows its usage and returns 0, whatever else is
    on the command line and without running its body.  Without [-h], a
    missing [-i] ends it with status 1 and the message about [-i], also
    when [-m] is missing too; a missing [-m] alone ends it with status 1
    and the message about [-m]; only with both set does the body run. *)
Theorem help_wins_over_missing_parameters f body :
  (FLAGS_h f = true → main_around f body = Some (0%Z, None))
  ∧ (FLAGS_h f = false → FLAGS_i f = "" →
     main_around f body = Some (1%Z, Some "[ ERROR ] Parameter -i is not set"))
  ∧ (FLAGS_h f = false → FLAGS_i f ≠ "" → FLAGS_m f = "" →
     main_around f body = Some (1%Z, Some "[ ERROR ] Parameter -m is not set"))
  ∧ (ParseAndCheckCommandLine f = Value true ↔
     FLAGS_h f = false ∧ FLAGS_i f ≠ "" ∧ FLAGS_m f ≠ "").
Proof.
  unfold main_around, ParseAndCheckCommandLine.
  split_and!.
  - by intros ->.
  - intros -> ->. done.
  - intros -> Hi ->. by rewrite bool_decide_eq_false_2.
  - destruct (FLAGS_h f); [by split; [|intros (? & _)]|].
    destruct (decide (FLAGS_i f = "")) as [Hi|Hi].
    { rewrite bool_decide_eq_true_2 by done. split; [done | by intros (_ & ? & _)]. }
    rewrite bool_decide_eq_false_2 by done.
    destruct (decide (FLAGS_m f = "")) as [Hm|Hm].
    { rewrite bool_decide_eq_true_2 by done. split; [done | by intros (_ & _ & ?)]. }
    by rewrite bool_decide_eq_false_2.
Qed.

Lemma help_wins_over_missing_parameters_witness :
  main_around {| FLAGS_h := true; FLAGS_i := ""; FLAGS_m := "" |} (Raised "unused")
  = Some (0%Z, None)
  ∧ main_around {| FLAGS_h := false; FLAGS_i := ""; FLAGS_m := "" |} (Value ())
    = Some (1%Z, Some "[ ERROR ] Parameter -i is not set").
Proof.
  destruct (help_wins_over_missing_parameters
              {| FLAGS_h := true; FLAGS_i := ""; FLAGS_m := "" |} (Raised "unused"))
    as (H1 & _).
  destruct (help_wins_over_missing_parameters
              {| FLAGS_h := false; FLAGS_i := ""; FLAGS_m := "" |} (Value ()))
    as (_ & H2 & _).
  split; [apply H1; reflexivity | apply H2; reflexivity].
Defined.

(** ** The output of the network *)

Lemma to_int_small z : (0 ≤ z < 2 ^ 31)%Z → to_int z = z.
Proof. intros Hz. unfold to_int. rewrite Z.mod_small; lia. Qed.

Lemma check_output_dims_value outputDims count size :
  check_output_dims outputDims = Value (count, size) ↔
  length outputDims = 4 ∧ size = 7%Z
  ∧ (to_int ∘ Z.of_N) <$> outputDims !! 3 = Some 7%Z
  ∧ (to_int ∘ Z.of_N) <$> outputDims !! 2 = Some count.
Proof.
  unfold check_output_dims.
  destruct (outputDims !! 2) as [d2|] eqn:H2;
    [|split; [done | by intros (_ & _ & _ & ?)]].
  destruct (outputDims !! 3) as [d3|] eqn:H3;
    [|split; [done | by intros (_ & _ & ? & _)]].
  simpl. destruct (to_int (Z.of_N d3) =? 7)%Z eqn:H7; simpl.
  - apply Z.eqb_eq in H7.
    destruct (length outputDims =? 4) eqn:H4; simpl.
    + apply Nat.eqb_eq in H4. split.
      * intros [= <- <-]. by rewrite H7.
      * intros (_ & -> & _ & [= <-]). by rewrite H7.
    + apply Nat.eqb_neq in H4. split; [done | by intros (? & _)].
  - apply Z.eqb_neq in H7. split; [done|]. intros (_ & _ & [= ?] & _). done.
Qed.

(** X15.  The checks of lines 250-258 pass exactly for an output of four
    dimensions whose last one is 7 as an [int].  The number of dimensions
    is tested after the third and fourth have been read: an output with
    fewer than four dimensions is read past its end, and the message about
    incorrect dimensions is only given for more than four. *)
Theorem output_dims_checked_after_read outputDims :
  (∀ count size, check_output_dims outputDims = Value (count, size) ↔
     length outputDims = 4 ∧ size = 7%Z
     ∧ (to_int ∘ Z.of_N) <$> outputDims !! 3 = Some 7%Z
     ∧ (to_int ∘ Z.of_N) <$> outputDims !! 2 = Some count)
  ∧ (length outputDims < 4 → check_output_dims outputDims = OutOfRange)
  ∧ (check_output_dims outputDims = Raised "Incorrect output dimensions for SSD" →
     4 < length outputDims).
Proof.
  split_and!.
  - intros count size. apply check_output_dims_value.
  - unfold check_output_dims.
    intros Hlen. destruct (outputDims !! 2) as [d2|] eqn:H2; [|done].
    destruct (outputDims !! 3) as [d3|] eqn:H3; [|done].
    apply lookup_lt_Some in H3. lia.
  - unfold check_output_dims.
    destruct (outputDims !! 2) as [d2|] eqn:H2; [|done].
    destruct (outputDims !! 3) as [d3|] eqn:H3; [|done].
    apply lookup_lt_Some in H3.
    destruct (to_int (Z.of_N d3) =? 7)%Z; simpl; [|done].
    destruct (length outputDims =? 4) eqn:H4; simpl; [done|].
    apply Nat.eqb_neq in H4. intros _. lia.
Qed.

Lemma output_dims_checked_after_read_witness :
  length [1%N; 1%N; 200%N] < 4
  ∧ check_output_dims [1%N; 1%N; 200%N] = OutOfRange
  ∧ check_output_dims [1%N; 1%N; 200%N; 7%N] = Value (200%Z, 7%Z).
Proof.
  assert (H1 : length [1%N; 1%N; 200%N] < 4) by (simpl; lia).
  split; [exact H1|]. split.
  - by destruct (output_dims_checked_after_read [1%N; 1%N; 200%N]) as (_ & H & _);
      apply H.
  - destruct (output_dims_checked_after_read [1%N; 1%N; 200%N; 7%N]) as (H & _).
    apply H. repeat split; reflexivity.
Defined.

(** ** The labels *)

Lemma fix_labels_length labels0 n :
  (Z.of_nat (length labels0) < 2 ^ 31)%Z →
  fix_labels labels0 n = [] ∨ Z.of_nat (length (fix_labels labels0 n)) = n.
Proof.
  intros Hlen. unfold fix_labels. rewrite to_int_small by lia.
  destruct (Z.of_nat (length labels0) =? n)%Z eqn:H1; simpl.
  - apply Z.eqb_eq in H1. by right.
  - destruct (Z.of_nat (length labels0) =? n - 1)%Z eqn:H2; [|by left].
    apply Z.eqb_eq in H2. right. simpl. lia.
Qed.

(** X16.  After lines 244-249 the labels are as many as the classes of the
    network, or there is none: labels that match are kept; labels that are
    one short get a first label "fake", which moves every label one place
    up; any other number of labels is dropped altogether. *)
Theorem labels_match_classes_or_none labels0 n :
  (Z.of_nat (length labels0) < 2 ^ 31)%Z →
  (fix_labels labels0 n = [] ∨ Z.of_nat (length (fix_labels labels0 n)) = n)
  ∧ (Z.of_nat (length labels0) = n → fix_labels labels0 n = labels0)
  ∧ (Z.of_nat (length labels0) = (n - 1)%Z →
     fix_labels labels0 n = "fake" :: labels0
     ∧ ∀ i, fix_labels labels0 n !! S i = labels0 !! i)
  ∧ (Z.of_nat (length labels0) ≠ n → Z.of_nat (length labels0) ≠ (n - 1)%Z →
     fix_labels labels0 n = []).
Proof.
  intros Hlen. unfold fix_labels. rewrite to_int_small by lia.
  destruct (Z.of_nat (length labels0) =? n)%Z eqn:H1; simpl.
  - apply Z.eqb_eq in H1. split_and!; [by right | done | lia | done].
  - apply Z.eqb_neq in H1.
    destruct (Z.of_nat (length labels0) =? n - 1)%Z eqn:H2.
    + apply Z.eqb_eq in H2. split_and!; [right; simpl; lia | done | done | done].
    + apply Z.eqb_neq in H2. split_and!; [by left | done | done | done].
Qed.

Lemma labels_match_classes_or_none_witness :
  (Z.of_nat (length ["person"; "car"]) < 2 ^ 31)%Z
  ∧ fix_labels ["person"; "car"] 3 = ["fake"; "person"; "car"]
  ∧ fix_labels ["person"; "car"] 5 = [].
Proof.
  assert (H : (Z.of_nat (length ["person"; "car"]) < 2 ^ 31)%Z) by (simpl; lia).
  split; [exact H|]. split.
  - destruct (labels_match_classes_or_none ["person"; "car"] 3 H) as (_ & _ & H3 & _).
    by apply H3.
  - destruct (labels_match_classes_or_none ["person"; "car"] 5 H) as (_ & _ & _ & H5).
    by apply H5.
Defined.

(** X17.  The text of a detection never reads [labels] outside its bounds:
    for a label that is an [int], the name is the label's entry of
    [labels] exactly when the label is not negative and below the number
    of labels; any other label, a negative one included, is written as
    "label #" and its number. *)
Theorem label_name_in_bounds labels0 label :
  (Z.of_nat (length labels0) < 2 ^ 31)%Z →
  (- 2 ^ 31 ≤ label < 2 ^ 31)%Z →
  ((0 ≤ label < Z.of_nat (length labels0))%Z →
   ∃ name, labels0 !! Z.to_nat label = Some name ∧ label_name labels0 label = name)
  ∧ (¬ (0 ≤ label < Z.of_nat (length labels0))%Z →
     label_name labels0 label = "label #" +:+ pretty label).
Proof.
  intros Hlen Hint. unfold label_name. split.
  - intros Hin. rewrite Z.mod_small by lia.
    destruct (label <? Z.of_nat (length labels0))%Z eqn:Hlt;
      [|apply Z.ltb_ge in Hlt; lia].
    destruct (lookup_lt_is_Some_2 labels0 (Z.to_nat label)) as [name Hname]; [lia|].
    exists name. by rewrite Hname.
  - intros Hout.
    destruct (label mod 2 ^ 64 <? Z.of_nat (length labels0))%Z eqn:Hlt; [|done].
    apply Z.ltb_lt in Hlt. exfalso.
    destruct (decide (0 ≤ label)%Z) as [Hpos | Hneg].
    + rewrite Z.mod_small in Hlt by lia. lia.
    + assert (label mod 2 ^ 64 = label + 2 ^ 64)%Z as Heq.
      { symmetry. apply Z.mod_unique_pos with (q := (-1)%Z); lia. }
      lia.
Qed.

Lemma label_name_in_bounds_witness :
  label_name ["fake"; "person"] 1 = "person"
  ∧ label_name ["fake"; "person"] (-1) = "label #-1"
  ∧ label_name ["fake"; "person"] 2 = "label #2".
Proof.
  assert (H1 : (Z.of_nat (length ["fake"; "person"]) < 2 ^ 31)%Z) by (simpl; lia).
  split; [|split].
  - destruct (label_name_in_bounds ["fake"; "person"] 1 H1) as [Hin _]; [lia|].
    destruct Hin as (name & Hname & ->); [simpl; lia|].
    vm_compute in Hname. by injection Hname as <-.
  - destruct (label_name_in_bounds ["fake"; "person"] (-1) H1) as [_ Hout]; [lia|].
    rewrite Hout; [reflexivity | simpl; lia].
  - destruct (label_name_in_bounds ["fake"; "person"] 2 H1) as [_ Hout]; [lia|].
    rewrite Hout; [reflexivity | simpl; lia].
Defined.

(** X18.  When the checks of lines 216-258 pass, the network has exactly
    one output, its tensor has four dimensions, [objectSize] is 7, and the
    labels are none or as many as [num_classes] (for a labels file of less
    than 2^31 words).  The number of classes is read from the first
    operation that bears the output's name, and is 0 when there is none. *)
Theorem accepted_output_is_ssd outputInfo function labels0 r :
  check_outputs outputInfo function labels0 = Value r →
  (∃ outputDims, outputInfo = [(outputName r, outputDims)]
     ∧ length outputDims = 4
     ∧ (to_int ∘ Z.of_N) <$> outputDims !! 2 = Some (maxProposalCount r))
  ∧ objectSize r = 7%Z
  ∧ labels r = fix_labels labels0 (num_classes r)
  ∧ ((Z.of_nat (length labels0) < 2 ^ 31)%Z →
     labels r = [] ∨ Z.of_nat (length (labels r)) = num_classes r)
  ∧ (∀ ops, function = Some ops →
     (∀ op, op ∈ ops → friendly_name op ≠ outputName r) → num_classes r = 0%Z).
Proof.
  unfold check_outputs. intros Hr.
  destruct outputInfo as [|[name dims] [|]]; try done.
  destruct (find_num_classes function name labels0) as [n| |] eqn:Hn; try done.
  destruct (check_output_dims dims) as [[count size]| |] eqn:Hd; try done.
  injection Hr as <-. simpl.
  apply check_output_dims_value in Hd as (Hlen & -> & _ & Hcount).
  split_and!; try done.
  - by exists dims.
  - intros Hlabels. by apply fix_labels_length.
  - intros ops -> Hnone. unfold find_num_classes in Hn.
    destruct (list_find _ ops) as [[i op]|] eqn:Hfind; [|by simplify_eq].
    apply list_find_Some in Hfind as (Hop & Hname & _).
    destruct (Hnone op); [by eapply list_elem_of_lookup_2 | done].
Qed.

Lemma accepted_output_is_ssd_witness :
  check_outputs [("detection_out", [1%N; 1%N; 200%N; 7%N])]
    (Some [{| friendly_name := "detection_out"; type_name := "DetectionOutput";
              detection_output := Some 3%Z |}])
    ["person"; "car"]
  = Value {| outputName := "detection_out"; num_classes := 3;
             labels := ["fake"; "person"; "car"];
             maxProposalCount := 200; objectSize := 7 |}
  ∧ objectSize {| outputName := "detection_out"; num_classes := 3;
                  labels := ["fake"; "person"; "car"];
                  maxProposalCount := 200; objectSize := 7 |} = 7%Z.
Proof.
  assert (H : check_outputs [("detection_out", [1%N; 1%N; 200%N; 7%N])]
    (Some [{| friendly_name := "detection_out"; type_name := "DetectionOutput";
              detection_output := Some 3%Z |}])
    ["person"; "car"]
  = Value {| outputName := "detection_out"; num_classes := 3;
             labels := ["fake"; "person"; "car"];
             maxProposalCount := 200; objectSize := 7 |}) by (vm_compute; reflexivity).
  split; [exact H|].
  by destruct (accepted_output_is_ssd _ _ _ _ H) as (_ & ? & _).
Defined.

(** ** The inputs of the network *)

Lemma default_last_cons {A B} (f : A → B) (a : B) (x : A) (l : list A) :
  default a (f <$> last (x :: l)) = default (f x) (f <$> last l).
Proof.
  destruct l as [|y l]; [done|]. rewrite last_cons_cons.
  destruct (proj2 (last_is_Some (y :: l))) as [z ->]; done.
Qed.

Lemma check_inputs_from_supported items :
  ∀ acc, forallb is_supported items = true →
  check_inputs_from acc items
  = Value {| imageInputName :=
               default (imageInputName acc)
                 (fst <$> last (filter (λ it, length it.2 = 4) items));
             imageInfoInputName :=
               default (imageInfoInputName acc)
                 (fst <$> last (filter (λ it, length it.2 = 2) items));
             netInputDims :=
               default (netInputDims acc)
                 ((λ it, Some it.2)
                    <$> last (filter (λ it, length it.2 = 4) items)) |}.
Proof.
  induction items as [|item rest IH]; intros acc Hok; simpl.
  { by destruct acc. }
  simpl in Hok. apply andb_true_iff in Hok as [Hitem Hrest].
  unfold check_input, is_supported in *.
  destruct (length item.2 =? 4) eqn:H4.
  - apply Nat.eqb_eq in H4. rewrite (IH _ Hrest). simpl.
    rewrite !filter_cons, decide_True, decide_False by (done || lia).
    by rewrite !default_last_cons.
  - apply Nat.eqb_neq in H4. simpl in Hitem. rewrite Hitem.
    apply Nat.eqb_eq in Hitem. rewrite (IH _ Hrest). simpl.
    rewrite !filter_cons, decide_False, decide_True by (done || lia).
    by rewrite !default_last_cons.
Qed.

Lemma check_inputs_from_unsupported good :
  ∀ acc bad rest, forallb is_supported good = true → is_supported bad = false →
  check_inputs_from acc (good ++ bad :: rest) = Raised (unsupported_message bad).
Proof.
  induction good as [|item good IH]; intros acc bad rest Hgood Hbad; simpl.
  - unfold check_input, is_supported in *.
    apply orb_false_iff in Hbad as [-> ->]. done.
  - simpl in Hgood. apply andb_true_iff in Hgood as [Hitem Hgood].
    unfold check_input, is_supported in Hitem |- *.
    destruct (length item.2 =? 4); [by apply IH|].
    simpl in Hitem. rewrite Hitem. by apply IH.
Qed.

(** X19.  The loop of lines 192-214 accepts the network exactly when every
    input has two or four dimensions, and otherwise raises for the first
    input that has not.  When it accepts, the image input is the last input
    of four dimensions and the image-info input the last of two; a network
    without an input of four dimensions is accepted too, with an empty
    image input name. *)
Theorem inputs_are_2d_or_4d inputInfo :
  (forallb is_supported inputInfo = true →
   check_inputs inputInfo
   = Value {| imageInputName :=
                default "" (fst <$> last (filter (λ it, length it.2 = 4) inputInfo));
              imageInfoInputName :=
                default "" (fst <$> last (filter (λ it, length it.2 = 2) inputInfo));
              netInputDims :=
                snd <$> last (filter (λ it, length it.2 = 4) inputInfo) |})
  ∧ (∀ good bad rest, inputInfo = good ++ bad :: rest →
       forallb is_supported good = true → is_supported bad = false →
       check_inputs inputInfo = Raised (unsupported_message bad))
  ∧ (∀ r, check_inputs inputInfo = Value r → forallb is_supported inputInfo = true).
Proof.
  unfold check_inputs. split_and!.
  - intros Hok. rewrite (check_inputs_from_supported _ _ Hok). simpl. f_equal.
    f_equal. by destruct (last (filter (λ it, length it.2 = 4) inputInfo)).
  - intros good bad rest -> Hgood Hbad. by apply check_inputs_from_unsupported.
  - intros r Hr.
    destruct (forallb is_supported inputInfo) eqn:Hall; [done|].
    exfalso. revert Hr. generalize
      {| imageInputName := ""; imageInfoInputName := ""; netInputDims := None |}.
    induction inputInfo as [|item rest IH]; intros acc; simpl; [done|].
    simpl in Hall. unfold check_input. unfold is_supported in Hall at 1.
    destruct (length item.2 =? 4); simpl in Hall; [by apply IH|].
    destruct (length item.2 =? 2); simpl in Hall; [by apply IH | done].
Qed.

Lemma inputs_are_2d_or_4d_witness :
  check_inputs [("data", [1%N; 3%N; 300%N; 300%N]); ("im_info", [1%N; 3%N])]
  = Value {| imageInputName := "data"; imageInfoInputName := "im_info";
             netInputDims := Some [1%N; 3%N; 300%N; 300%N] |}
  ∧ check_inputs [("im_info", [1%N; 3%N])]
    = Value {| imageInputName := ""; imageInfoInputName := "im_info";
               netInputDims := None |}
  ∧ check_inputs [("data", [1%N; 3%N; 300%N; 300%N]); ("seq", [1%N; 3%N; 5%N])]
    = Raised "Unsupported 3D input layer 'seq'. Only 2D and 4D input layers are supported".
Proof.
  split; [|split].
  - destruct (inputs_are_2d_or_4d
                [("data", [1%N; 3%N; 300%N; 300%N]); ("im_info", [1%N; 3%N])])
      as (H & _).
    rewrite H; reflexivity.
  - destruct (inputs_are_2d_or_4d [("im_info", [1%N; 3%N])]) as (H & _).
    rewrite H; reflexivity.
  - destruct (inputs_are_2d_or_4d
                [("data", [1%N; 3%N; 300%N; 300%N]); ("seq", [1%N; 3%N; 5%N])])
      as (_ & H & _).
    rewrite (H [("data", [1%N; 3%N; 300%N; 300%N])] ("seq", [1%N; 3%N; 5%N]) []);
      reflexivity.
Defined.

(** ** Drawing the detections *)

Section DetectionsProofs.
Context {F : Type}.
Variable is_negative : F → bool.
Variable exceeds : F → F → bool.
Variable float_to_int : F → Z.
Variable scaled : F → N → F.
Variable minus_5 : F → F.
Variable fixed_3 : F → string.
Variable detections : nat → F.
Variable size : nat.
Variable width height : N.
Variable names : list string.
Variable threshold : F.

Lemma draw_detections_from_spec n :
  ∀ i0 d,
  d ∈ draw_detections_from is_negative exceeds float_to_int scaled minus_5 fixed_3
        detections size width height names threshold n i0 ↔
    ∃ i, i0 ≤ i < i0 + n
         ∧ (∀ j, i0 ≤ j ≤ i → is_negative (detections (j * size + 0)) = false)
         ∧ exceeds (detections (i * size + 2)) threshold = true
         ∧ d ∈ draw_detection float_to_int scaled minus_5 fixed_3 detections size
             width height names i.
Proof.
  induction n as [|n IH]; intros i0 d; simpl.
  { split; [by intros ?%elem_of_nil | intros (i & ? & _); lia]. }
  destruct (is_negative (detections (i0 * size + 0))) eqn:Hneg.
  { split; [by intros ?%elem_of_nil|].
    intros (i & Hi & Hall & _). rewrite (Hall i0) in Hneg; [done | lia]. }
  rewrite elem_of_app, IH. split.
  - intros [Hd | (i & Hi & Hall & Hex & Hd)].
    + destruct (exceeds (detections (i0 * size + 2)) threshold) eqn:Hex;
        [|by apply elem_of_nil in Hd].
      exists i0. split; [lia|]. split; [|by split].
      intros j Hj. by replace j with i0 by lia.
    + exists i. split; [lia|]. split; [|by split].
      intros j Hj. destruct (decide (j = i0)) as [->|]; [done|].
      apply Hall. lia.
  - intros (i & Hi & Hall & Hex & Hd).
    destruct (decide (i = i0)) as [->|Hne].
    + left. by rewrite Hex.
    + right. exists i. split; [lia|]. split; [|by split].
      intros j Hj. apply Hall. lia.
Qed.

(** X20.  The loop of lines 385-416 draws the detection at index [i], a
    text and a rectangle, exactly when [i] is below [maxProposalCount],
    no detection up to [i] has a negative image id, and the confidence of
    detection [i] exceeds the threshold: the first negative image id ends
    the drawing, and what follows it is not looked at. *)
Theorem draws_until_first_negative_image_id (maxProposalCount : Z) d :
  d ∈ draw_detections is_negative exceeds float_to_int scaled minus_5 fixed_3
        detections size width height names threshold maxProposalCount
  ↔ ∃ i, (Z.of_nat i < maxProposalCount)%Z
         ∧ (∀ j, j ≤ i → is_negative (detections (j * size + 0)) = false)
         ∧ exceeds (detections (i * size + 2)) threshold = true
         ∧ d ∈ draw_detection float_to_int scaled minus_5 fixed_3 detections size
                 width height names i.
Proof.
  unfold draw_detections. rewrite draw_detections_from_spec.
  split; intros (i & Hi & Hall & Hex & Hd); exists i.
  - split; [lia|]. split; [|by split]. intros j Hj. apply Hall. lia.
  - split; [lia|]. split; [|by split]. intros j Hj. apply Hall. lia.
Qed.
End DetectionsProofs.

(** Two detections with a non-negative image id, then one with a negative
    one and a last one that would qualify: the first is drawn, the second
    is below the threshold, the fourth is not looked at. *)
Lemma draws_until_first_negative_image_id_witness :
  draw_detections (λ x, (x <? 0)%Z) (λ x y, (y <? x)%Z) id (λ x w, (x * Z.of_N w)%Z)
    (λ y, (y - 5)%Z) pretty
    (λ k, nth k [0; 1; 90; 1; 1; 2; 2;   0; 0; 10; 1; 1; 2; 2;
                 -1; 0; 0; 0; 0; 0; 0;   0; 1; 99; 1; 1; 2; 2]%Z 0%Z)
    7 10 10 ["fake"; "person"] 50%Z 4
  = [PutText "person:90" 10 5; Rectangle 10 10 20 20]%Z
  ∧ (Rectangle 10 10 20 20)%Z
    ∈ draw_detections (λ x, (x <? 0)%Z) (λ x y, (y <? x)%Z) id
        (λ x w, (x * Z.of_N w)%Z) (λ y, (y - 5)%Z) pretty
        (λ k, nth k [0; 1; 90; 1; 1; 2; 2;   0; 0; 10; 1; 1; 2; 2;
                     -1; 0; 0; 0; 0; 0; 0;   0; 1; 99; 1; 1; 2; 2]%Z 0%Z)
        7 10 10 ["fake"; "person"] 50%Z 4.
Proof.
  split; [vm_compute; reflexivity|].
  apply draws_until_first_negative_image_id. exists 0.
  split; [lia|]. split; [|split].
  - intros j Hj. replace j with 0 by lia. reflexivity.
  - reflexivity.
  - right. left.
Defined.

(** ** The configuration of the devices *)

Lemma insert_new_lookup {V} k (v : V) (m : gmap string V) j :
  insert_new k v m !! j
  = if bool_decide (j = k) then Some (default v (m !! k)) else m !! j.
Proof.
  unfold insert_new. case_bool_decide as Hj.
  - subst j. destruct (m !! k) eqn:Hk; [done|]. by rewrite lookup_insert_eq.
  - destruct (m !! k) eqn:Hk; [done|]. by rewrite lookup_insert_ne.
Qed.

Lemma streams_value_eq device auto (m1 m2 : gmap string nat) :
  m1 !! device = m2 !! device → streams_value device auto m1 = streams_value device auto m2.
Proof. unfold streams_value. by intros ->. Qed.

Lemma elem_of_snoc_bool (x y : string) (l : list string) :
  bool_decide (x ∈ l ++ [y]) = bool_decide (x ∈ l) || bool_decide (x = y).
Proof.
  apply eq_true_iff_eq. rewrite orb_true_iff, !bool_decide_eq_true.
  rewrite elem_of_app, list_elem_of_singleton. done.
Qed.

Lemma configured_step f devices nstreams getConfig l c device :
  configured f devices nstreams l c →
  configured f devices nstreams (l ++ [device])
    (configure_device f devices getConfig c device).
Proof.
  intros (Hu & Hm & Hc & Hg).
  unfold configured, configure_device. rewrite !elem_of_snoc_bool.
  destruct (decide (device = "CPU")) as [->|Hcpu].
  - rewrite (bool_decide_eq_true_2 ("CPU" = "CPU")) by done.
    rewrite (bool_decide_eq_false_2 ("GPU" = "CPU")) by done.
    rewrite orb_true_r, orb_false_r. simpl. split_and!.
    + intros k.
      rewrite insert_new_lookup.
      destruct (FLAGS_nthreads f =? 0) eqn:Hn;
        destruct (names_multi (FLAGS_d f) && bool_decide ("GPU" ∈ devices)) eqn:Hmg;
        simpl; rewrite ?insert_new_lookup, !Hu;
        unfold expected_user; rewrite ?Hn, ?Hmg, ?andb_true_r, ?andb_false_r;
        repeat case_bool_decide; simplify_eq; try done;
        f_equal; apply streams_value_eq; auto.
    + intros k. rewrite insert_new_lookup, !Hm. unfold expected_min.
      repeat case_bool_decide; simplify_eq; try done;
        by destruct (bool_decide ("CPU" ∈ l)).
    + intros Hnot. exfalso. apply Hnot, elem_of_app. right. by left.
    + intros Hnot. rewrite lookup_insert_ne by done. apply Hg.
      intros Hin. apply Hnot, elem_of_app. by left.
  - rewrite (bool_decide_eq_false_2 (device = "CPU")) by done.
    rewrite (bool_decide_eq_false_2 ("CPU" = device)) by done.
    rewrite orb_false_r.
    destruct (decide (device = "GPU")) as [->|Hgpu].
    + rewrite (bool_decide_eq_true_2 ("GPU" = "GPU")) by done.
      rewrite orb_true_r. simpl. split_and!.
      * intros k.
        destruct (names_multi (FLAGS_d f) && bool_decide ("CPU" ∈ devices)) eqn:Hmc;
          simpl; rewrite ?insert_new_lookup, !Hu;
          unfold expected_user;
          rewrite <- ?andb_assoc, ?Hmc, ?andb_true_r, ?andb_false_r;
          repeat case_bool_decide; simplify_eq; try done;
          f_equal; apply streams_value_eq; auto.
      * intros k. rewrite insert_new_lookup, !Hm. unfold expected_min.
        repeat case_bool_decide; simplify_eq; try done;
          by destruct (bool_decide ("GPU" ∈ l)).
      * intros Hnot. rewrite lookup_insert_ne by done. apply Hc.
        intros Hin. apply Hnot, elem_of_app. by left.
      * intros Hnot. exfalso. apply Hnot, elem_of_app. right. by left.
    + rewrite (bool_decide_eq_false_2 (device = "GPU")) by done.
      rewrite (bool_decide_eq_false_2 ("GPU" = device)) by done.
      rewrite orb_false_r. split_and!; [done|done| |].
      * intros Hnot. apply Hc. intros Hin. apply Hnot, elem_of_app. by left.
      * intros Hnot. apply Hg. intros Hin. apply Hnot, elem_of_app. by left.
Qed.

Lemma configured_all f devices nstreams getConfig l :
  configured f devices nstreams l
    (foldl (configure_device f devices getConfig)
       {| userSpecifiedConfig := ∅; minLatencyConfig := ∅;
          deviceNstreams := nstreams |} l).
Proof.
  induction l as [|device l IH] using rev_ind.
  - split_and!; try done; intros k; simpl; rewrite lookup_empty.
    + unfold expected_user. simpl. by repeat case_bool_decide.
    + unfold expected_min. by repeat case_bool_decide.
  - rewrite foldl_snoc. by apply configured_step.
Qed.


(** X22.  The minimum-latency configuration asks for one stream on each of
    "CPU" and "GPU" that is among the devices, and sets nothing else: no
    thread count, no binding, no throttle. *)
Theorem min_latency_config_is_one_stream f devices nstreams getConfig k v :
  minLatencyConfig (configure_devices f devices nstreams getConfig) !! k = Some v ↔
  v = "1"
  ∧ ((k = KEY_CPU_THROUGHPUT_STREAMS ∧ "CPU" ∈ devices)
     ∨ (k = KEY_GPU_THROUGHPUT_STREAMS ∧ "GPU" ∈ devices)).
Proof.
  destruct (configured_all f devices nstreams getConfig devices) as (_ & H & _).
  unfold configure_devices. rewrite H. unfold expected_min.
  repeat case_bool_decide; simplify_eq; split; try done;
    try (intros [= <-]; split; [done|]; first [by left | by right]);
    intros (-> & [[? ?] | [? ?]]); by simplify_eq.
Qed.

Lemma min_latency_config_is_one_stream_witness :
  minLatencyConfig
    (configure_devices {| FLAGS_d := "MULTI:CPU,GPU"; FLAGS_nthreads := 4 |}
       ["CPU"; "GPU"] {[ "CPU" := 2 ]} (λ _ _, 1))
    !! KEY_GPU_THROUGHPUT_STREAMS = Some "1"
  ∧ userSpecifiedConfig
      (configure_devices {| FLAGS_d := "MULTI:CPU,GPU"; FLAGS_nthreads := 4 |}
         ["CPU"; "GPU"] {[ "CPU" := 2 ]} (λ _ _, 1))
    = {[ KEY_CPU_THREADS_NUM := "4"; KEY_CPU_BIND_THREAD := "NO";
         KEY_CPU_THROUGHPUT_STREAMS := "2";
         KEY_GPU_THROUGHPUT_STREAMS := "GPU_THROUGHPUT_AUTO";
         KEY_CLDNN_PLUGIN_THROTTLE := "1" ]}.
Proof.
  split; [|vm_compute; reflexivity].
  apply min_latency_config_is_one_stream. split; [done|]. right. split; [done|].
  right. left.
Defined.
